(** * ProMarker stencil validator: the validation engine of [validate.ts]

    A shallow embedding of the engine behind [promarker validate]: settings
    loading, schema validation, the strict-mode pass, the file reference
    check, the include/extend report, the summary and the exit code.

    The engine appends to one mutable [results] array that it passes from
    function to function; here every function takes the array and returns
    the array it leaves behind.  The file system, the YAML parser, the
    path library and the texts of the schema library's own messages are
    not part of the repository: the file system is a record of the calls
    the engine makes, the others are variables of the section. *)

From Stdlib Require Import List String Ascii Bool Arith Lia.
From Stdlib Require Import Numbers.DecimalString.
From Stdlib Require Import Sorting.Permutation.
From Stdlib Require Import Floats.PrimFloat.
Import ListNotations.

Set Warnings "-register-all".

Local Open Scope string_scope.
Local Open Scope list_scope.

(** ** JavaScript values, as the YAML parser hands them over *)

(** What [parseYaml] returns: null, booleans, numbers (IEEE doubles),
    strings, arrays and plain objects.  A property that is absent reads as
    [undefined]; that is [None] of [option jsval]. *)
Inductive jsval : Type :=
| JNull
| JBool (b : bool)
| JNumber (x : float)
| JString (s : string)
| JArray (xs : list jsval)
| JObject (fields : list (string * jsval)).

Fixpoint lookup (k : string) (fields : list (string * jsval)) : option jsval :=
  match fields with
  | [] => None
  | (k', v) :: rest => if String.eqb k k' then Some v else lookup k rest
  end.

(** [o.k] for one of the keys the engine reads ([id], [version],
    [description], [files], [extend], [include]): none of them is a
    property of an array. *)
Definition prop (o : jsval) (k : string) : option jsval :=
  match o with
  | JObject fields => lookup k fields
  | _ => None
  end.

(** JavaScript truthiness, as in [if (v)], [!v] and [v && ...]. *)
Definition truthy (v : option jsval) : bool :=
  match v with
  | None => false
  | Some JNull => false
  | Some (JBool b) => b
  | Some (JNumber x) => negb (PrimFloat.eqb x 0%float || negb (PrimFloat.eqb x x))
  | Some (JString s) => negb (String.eqb s "")
  | Some (JArray _) => true
  | Some (JObject _) => true
  end.

(** [typeof v === 'object' && v !== null]. *)
Definition is_object (v : jsval) : bool :=
  match v with
  | JArray _ | JObject _ => true
  | _ => false
  end.

(** [typeof v === 'string']. *)
Definition is_string (v : option jsval) : bool :=
  match v with
  | Some (JString _) => true
  | _ => false
  end.

(** The string that [v] is, where [typeof v === 'string'] has been tested. *)
Definition as_string (v : option jsval) : string :=
  match v with
  | Some (JString s) => s
  | _ => ""
  end.

(** [Array.isArray(v)]. *)
Definition isArray (v : option jsval) : bool :=
  match v with
  | Some (JArray _) => true
  | _ => false
  end.

(** The elements a [for ... of] or [forEach] over [v] visits. *)
Definition elements (v : option jsval) : list jsval :=
  match v with
  | Some (JArray xs) => xs
  | _ => []
  end.

(** ** Exceptions *)

(** What a [catch] clause receives: an [Error] with its message, or some
    other value, the two cases of [error instanceof Error]. *)
Inductive thrown : Type :=
| ErrorObject (msg : string)
| NotAnError.

Inductive outcome (A : Type) : Type :=
| Returns (a : A)
| Throws (e : thrown).

Arguments Returns {A} a.
Arguments Throws {A} e.

(** [error instanceof Error ? error.message : fallback]. *)
Definition message_of (e : thrown) (fallback : string) : string :=
  match e with
  | ErrorObject msg => msg
  | NotAnError => fallback
  end.

(** ** The file system the engine reads *)

Record FileSystem : Type := {
  existsSync : string -> bool;
  (** [statSync(p).isDirectory()] *)
  isDirectory : string -> bool;
  (** [readFileSync(p, 'utf-8')] *)
  readFileSync : string -> outcome string;
  (** [glob('**/*', { cwd: p, nodir: true })]: the paths the walk of [p]
      returns, which [glob_nodir] gives for a directory *)
  glob : string -> list string
}.

(** ** Findings and the summary *)

Inductive Severity : Type := error | warning | info.

Definition Severity_eqb (a b : Severity) : bool :=
  match a, b with
  | error, error | warning, warning | info, info => true
  | _, _ => false
  end.

Module ValidationResult.
Record t : Type := {
  path : string;
  type : Severity;
  message : string;
  details : option string
}.
End ValidationResult.

Abbreviation ValidationResult := ValidationResult.t.

Module ValidationSummary.
Record t : Type := {
  success : bool;
  path : string;
  errors : list ValidationResult;
  warnings : list ValidationResult;
  info : list ValidationResult;
  totalFiles : nat;
  validatedAt : string
}.
End ValidationSummary.

Abbreviation ValidationSummary := ValidationSummary.t.

Inductive Format : Type := text | json.
Inductive FailOn : Type := fail_none | fail_warn | fail_error.

(** The string a [failOn] option carries. *)
Definition failOn_string (f : FailOn) : string :=
  match f with
  | fail_none => "none"
  | fail_warn => "warn"
  | fail_error => "error"
  end.

Record ValidateOptions : Type := {
  format : Format;
  failOn : FailOn;
  strict : option bool;
  ignore : option (list string)
}.

(** [results.push(r)]. *)
Definition push (results : list ValidationResult) (r : ValidationResult)
  : list ValidationResult :=
  results ++ [r].

(** ** The schema library *)

(** The schema constructors [StencilSettingsSchema] is built from. *)
Inductive ZodType : Type :=
| z_string (min : option (nat * string))
| z_any
| z_array (element : ZodType)
| z_record (value : ZodType)
| z_optional (inner : ZodType)
| z_object (shape : list (string * ZodType)).

(** One step of an issue's path: a key or an array index. *)
Inductive PathSegment : Type :=
| Key (k : string)
| Index (i : nat).

Module ZodIssue.
Record t : Type := {
  path : list PathSegment;
  message : string
}.
End ZodIssue.

Abbreviation ZodIssue := ZodIssue.t.

Inductive SafeParseReturn : Type :=
| SafeParseSuccess (data : jsval)
| SafeParseError (issues : list ZodIssue).

Definition segment_string (s : PathSegment) : string :=
  match s with
  | Key k => k
  | Index i => NilEmpty.string_of_uint (Nat.to_uint i)
  end.

(** [parts.join('.')]. *)
Fixpoint join_dot (parts : list string) : string :=
  match parts with
  | [] => ""
  | [s] => s
  | s :: rest => s ++ "." ++ join_dot rest
  end.

(** The object the schema library returns for a successful parse: the keys
    of the shape that the input has, unknown keys dropped.  The members of
    this schema (strings, arrays of strings, open records) come back as
    they went in. *)
Definition zod_output (t : ZodType) (input : jsval) : jsval :=
  match t, input with
  | z_object shape, JObject fields =>
      JObject (flat_map (fun kt => match lookup (fst kt) fields with
                                   | Some v => [(fst kt, v)]
                                   | None => []
                                   end) shape)
  | _, _ => input
  end.

(** ** The two regular expressions of the strict-mode pass *)

Definition is_digit (c : ascii) : bool :=
  let n := nat_of_ascii c in Nat.leb 48 n && Nat.leb n 57.

Definition is_lower (c : ascii) : bool :=
  let n := nat_of_ascii c in Nat.leb 97 n && Nat.leb n 122.

(** The character class [[a-z0-9-_]]: the two ranges, the hyphen and the
    underscore. *)
Definition id_char (c : ascii) : bool :=
  is_lower c || is_digit c || Ascii.eqb c "-" || Ascii.eqb c "_".

Fixpoint all_chars (p : ascii -> bool) (s : string) : bool :=
  match s with
  | EmptyString => true
  | String c rest => p c && all_chars p rest
  end.

(** [/^[a-z0-9-_]+$/.test(s)]: one character or more, each of the class. *)
Definition id_regex_test (s : string) : bool :=
  match s with
  | EmptyString => false
  | String _ _ => all_chars id_char s
  end.

(** What is left of [s] after its leading digits. *)
Fixpoint skip_digits (s : string) : string :=
  match s with
  | EmptyString => EmptyString
  | String c rest => if is_digit c then skip_digits rest else s
  end.

(** [\d+] at the head of [s]: the rest after the digits, when there is at
    least one.  The run is taken whole: the regular expression goes on with
    a dot or ends, so no shorter run can match where the whole one fails. *)
Definition digits1 (s : string) : option string :=
  match s with
  | EmptyString => None
  | String c rest => if is_digit c then Some (skip_digits rest) else None
  end.

(** [\.] at the head of [s]. *)
Definition dot1 (s : string) : option string :=
  match s with
  | EmptyString => None
  | String c rest => if Ascii.eqb c "." then Some rest else None
  end.

(** [/^\d+\.\d+\.\d+/.test(s)]: a prefix of [s] is digits, dot, digits,
    dot, digits. *)
Definition version_regex_test (s : string) : bool :=
  match digits1 s with
  | None => false
  | Some s1 =>
      match dot1 s1 with
      | None => false
      | Some s2 =>
          match digits1 s2 with
          | None => false
          | Some s3 =>
              match dot1 s3 with
              | None => false
              | Some s4 =>
                  match digits1 s4 with
                  | None => false
                  | Some _ => true
                  end
              end
          end
      end
  end.

(** ** The engine *)

Section Engine.

(** [join] of the path library. *)
Variable join : string -> string -> string.

(** [parse] of the YAML library: the parsed value, or the exception. *)
Variable parseYaml : string -> outcome jsval.

(** The schema library's message for a value of the wrong type: the type
    expected and the value received ([None] for a missing key). *)
Variable invalid_type_message : string -> option jsval -> string.

Definition invalid_type (p : list PathSegment) (expected : string)
  (received : option jsval) : ZodIssue :=
  {| ZodIssue.path := p;
     ZodIssue.message := invalid_type_message expected received |}.

(** The issues of parsing [input] at path [p] against [t], in the order
    the library reports them: the keys of an object in the order of the
    shape, the elements of an array in index order. *)
Fixpoint zod_issues (t : ZodType) (p : list PathSegment)
  (input : option jsval) {struct t} : list ZodIssue :=
  match t with
  | z_string min =>
      match input with
      | Some (JString s) =>
          match min with
          | Some (n, msg) =>
              if Nat.ltb (String.length s) n
              then [{| ZodIssue.path := p; ZodIssue.message := msg |}]
              else []
          | None => []
          end
      | _ => [invalid_type p "string" input]
      end
  | z_any => []
  | z_array element =>
      match input with
      | Some (JArray xs) =>
          (fix each (xs : list jsval) (i : nat) : list ZodIssue :=
             match xs with
             | [] => []
             | x :: rest =>
                 zod_issues element (p ++ [Index i]) (Some x)
                 ++ each rest (S i)
             end) xs 0
      | _ => [invalid_type p "array" input]
      end
  | z_record value =>
      match input with
      | Some (JObject fields) =>
          (fix each (fields : list (string * jsval)) : list ZodIssue :=
             match fields with
             | [] => []
             | (k, v) :: rest =>
                 zod_issues value (p ++ [Key k]) (Some v) ++ each rest
             end) fields
      | _ => [invalid_type p "object" input]
      end
  | z_optional inner =>
      match input with
      | None => []
      | Some _ => zod_issues inner p input
      end
  | z_object shape =>
      match input with
      | Some (JObject fields) =>
          (fix each (shape : list (string * ZodType)) : list ZodIssue :=
             match shape with
             | [] => []
             | (k, t') :: rest =>
                 zod_issues t' (p ++ [Key k]) (lookup k fields) ++ each rest
             end) shape
      | _ => [invalid_type p "object" input]
      end
  end.

(** [schema.safeParse(input)]. *)
Definition safeParse (t : ZodType) (input : jsval) : SafeParseReturn :=
  match zod_issues t [] (Some input) with
  | [] => SafeParseSuccess (zod_output t input)
  | issues => SafeParseError issues
  end.

Definition StencilSettingsSchema : ZodType :=
  z_object
    [ ("id", z_string (Some (1, "Stencil ID is required")));
      ("name", z_string (Some (1, "Stencil name is required")));
      ("version", z_string (Some (1, "Version is required")));
      ("type", z_string (Some (1, "Stencil type is required")));
      ("description", z_optional (z_string None));
      ("files", z_optional (z_array (z_string None)));
      ("include", z_optional (z_array (z_string None)));
      ("extend", z_optional (z_string None));
      ("variables", z_optional (z_record z_any));
      ("metadata", z_optional (z_record z_any)) ].

Definition id_warning (settingsFile : string) : ValidationResult :=
  {| ValidationResult.path := settingsFile;
     ValidationResult.type := warning;
     ValidationResult.message :=
       "Stencil ID should only contain lowercase letters, numbers, hyphens, and underscores";
     ValidationResult.details := None |}.

Definition version_warning (settingsFile : string) : ValidationResult :=
  {| ValidationResult.path := settingsFile;
     ValidationResult.type := warning;
     ValidationResult.message :=
       "Version should follow semantic versioning format (x.y.z)";
     ValidationResult.details := None |}.

Definition description_warning (settingsFile : string) : ValidationResult :=
  {| ValidationResult.path := settingsFile;
     ValidationResult.type := warning;
     ValidationResult.message :=
       "Description is recommended for better documentation";
     ValidationResult.details := None |}.


Definition performStrictValidation (settingsFile : string) (settings : jsval)
  (results : list ValidationResult) : list ValidationResult :=
  if negb (is_object settings) then results else
  let settingsObj := settings in
  let results :=
    if is_string (prop settingsObj "id")
       && negb (id_regex_test (as_string (prop settingsObj "id")))
    then push results (id_warning settingsFile)
    else results in
  let results :=
    if is_string (prop settingsObj "version")
       && negb (version_regex_test (as_string (prop settingsObj "version")))
    then push results (version_warning settingsFile)
    else results in
  let results :=
    if negb (truthy (prop settingsObj "description"))
    then push results (description_warning settingsFile)
    else results in
  results.

Definition schema_error (settingsFile : string) (err : ZodIssue)
  : ValidationResult :=
  {| ValidationResult.path := settingsFile;
     ValidationResult.type := error;
     ValidationResult.message :=
       "Schema validation failed: "
       ++ join_dot (map segment_string (ZodIssue.path err))
       ++ " - " ++ ZodIssue.message err;
     ValidationResult.details := None |}.

Definition settings_valid (settingsFile : string) : ValidationResult :=
  {| ValidationResult.path := settingsFile;
     ValidationResult.type := info;
     ValidationResult.message := "Stencil settings file is valid";
     ValidationResult.details := None |}.

Definition invalid_yaml (settingsFile : string) (e : thrown)
  : ValidationResult :=
  {| ValidationResult.path := settingsFile;
     ValidationResult.type := error;
     ValidationResult.message := "Invalid YAML format";
     ValidationResult.details :=
       Some (message_of e "Unknown YAML parsing error") |}.

Definition read_failed (settingsFile : string) (e : thrown)
  : ValidationResult :=
  {| ValidationResult.path := settingsFile;
     ValidationResult.type := error;
     ValidationResult.message := "Failed to read stencil settings file";
     ValidationResult.details :=
       Some (message_of e "Unknown file reading error") |}.

Definition validateSettingsFile (fs : FileSystem) (settingsFile : string)
  (results : list ValidationResult) (_options : ValidateOptions)
  : list ValidationResult :=
  match readFileSync fs settingsFile with
  | Throws e => push results (read_failed settingsFile e)
  | Returns content =>
      match parseYaml content with
      | Throws e => push results (invalid_yaml settingsFile e)
      | Returns settings =>
          match safeParse StencilSettingsSchema settings with
          | SafeParseError issues =>
              fold_left (fun results err =>
                           push results (schema_error settingsFile err))
                        issues results
          | SafeParseSuccess data =>
              let results :=
                match strict _options with
                | Some true => performStrictValidation settingsFile data results
                | _ => results
                end in
              push results (settings_valid settingsFile)
          end
      end
  end.

Definition reference_missing (filePath file : string) : ValidationResult :=
  {| ValidationResult.path := filePath;
     ValidationResult.type := error;
     ValidationResult.message := "Referenced file does not exist: " ++ file;
     ValidationResult.details := None |}.

Definition reference_exists (filePath file : string) : ValidationResult :=
  {| ValidationResult.path := filePath;
     ValidationResult.type := info;
     ValidationResult.message := "Referenced file exists: " ++ file;
     ValidationResult.details := None |}.

Definition files_dir_found (filesDir : string) : ValidationResult :=
  {| ValidationResult.path := filesDir;
     ValidationResult.type := info;
     ValidationResult.message := "Default files/ directory found";
     ValidationResult.details := None |}.

Definition files_dir_missing (filesDir : string) : ValidationResult :=
  {| ValidationResult.path := filesDir;
     ValidationResult.type := warning;
     ValidationResult.message :=
       "No files/ directory found and no explicit files list provided";
     ValidationResult.details := None |}.

(** The body of the loop over [settingsObj.files]. *)
Definition check_file (fs : FileSystem) (path : string)
  (results : list ValidationResult) (file : jsval) : list ValidationResult :=
  if is_string (Some file) then
    let file := as_string (Some file) in
    let filePath := join path file in
    if negb (existsSync fs filePath)
    then push results (reference_missing filePath file)
    else push results (reference_exists filePath file)
  else results.

Definition validateFileReferences (fs : FileSystem) (path : string)
  (settings : jsval) (results : list ValidationResult)
  : list ValidationResult :=
  if negb (is_object settings) then results else
  let settingsObj := settings in
  let results :=
    if truthy (prop settingsObj "files") && isArray (prop settingsObj "files")
    then fold_left (check_file fs path)
                   (elements (prop settingsObj "files")) results
    else results in
  if negb (truthy (prop settingsObj "files")) then
    let filesDir := join path "files" in
    if existsSync fs filesDir && isDirectory fs filesDir
    then push results (files_dir_found filesDir)
    else push results (files_dir_missing filesDir)
  else results.

Definition extend_warning (path extend : string) : ValidationResult :=
  {| ValidationResult.path := join path "stencil-settings.yml";
     ValidationResult.type := warning;
     ValidationResult.message :=
       "Extend reference found: " ++ extend
       ++ " (cannot validate external references in Phase 1)";
     ValidationResult.details := None |}.

Definition include_warning (path include : string) : ValidationResult :=
  {| ValidationResult.path := join path "stencil-settings.yml";
     ValidationResult.type := warning;
     ValidationResult.message :=
       "Include reference found: " ++ include
       ++ " (cannot validate external references in Phase 1)";
     ValidationResult.details := None |}.

(** The body of the [forEach] over [settingsObj.include]. *)
Definition report_include (path : string) (results : list ValidationResult)
  (include : jsval) : list ValidationResult :=
  if is_string (Some include)
  then push results (include_warning path (as_string (Some include)))
  else results.

Definition validateReferenceIntegrity (path : string) (settings : jsval)
  (results : list ValidationResult) : list ValidationResult :=
  if negb (is_object settings) then results else
  let settingsObj := settings in
  let results :=
    if truthy (prop settingsObj "extend") && is_string (prop settingsObj "extend")
    then push results
           (extend_warning path (as_string (prop settingsObj "extend")))
    else results in
  if truthy (prop settingsObj "include") && isArray (prop settingsObj "include")
  then fold_left (report_include path)
                 (elements (prop settingsObj "include")) results
  else results.

(** The parsed document, or [null] when reading or parsing throws. *)
Definition loadStencilSettings (fs : FileSystem) (settingsFile : string)
  : jsval :=
  match readFileSync fs settingsFile with
  | Throws _ => JNull
  | Returns content =>
      match parseYaml content with
      | Throws _ => JNull
      | Returns settings => settings
      end
  end.

Definition has_type (s : Severity) (r : ValidationResult) : bool :=
  Severity_eqb (ValidationResult.type r) s.

(** [now] is the reading of the clock, [new Date().toISOString()]. *)
Definition createSummary (path : string) (results : list ValidationResult)
  (totalFiles : nat) (now : string) : ValidationSummary :=
  let errors := filter (has_type error) results in
  let warnings := filter (has_type warning) results in
  let info := filter (has_type info) results in
  {| ValidationSummary.success := Nat.eqb (List.length errors) 0;
     ValidationSummary.path := path;
     ValidationSummary.errors := errors;
     ValidationSummary.warnings := warnings;
     ValidationSummary.info := info;
     ValidationSummary.totalFiles := totalFiles;
     ValidationSummary.validatedAt := now |}.

Definition determineExitCode (summary : ValidationSummary) (failOn : string)
  : nat :=
  if Nat.ltb 0 (List.length (ValidationSummary.errors summary)) then 2
  else if String.eqb failOn "warn"
          && Nat.ltb 0 (List.length (ValidationSummary.warnings summary))
  then 1
  else 0.

Definition path_missing (path : string) : ValidationResult :=
  {| ValidationResult.path := path;
     ValidationResult.type := error;
     ValidationResult.message := "Path does not exist";
     ValidationResult.details := None |}.

Definition path_not_directory (path : string) : ValidationResult :=
  {| ValidationResult.path := path;
     ValidationResult.type := error;
     ValidationResult.message := "Path must be a directory";
     ValidationResult.details := None |}.

Definition settings_missing (settingsFile : string) : ValidationResult :=
  {| ValidationResult.path := settingsFile;
     ValidationResult.type := error;
     ValidationResult.message := "Required file stencil-settings.yml not found";
     ValidationResult.details := None |}.

Definition validateStencilDefinition (fs : FileSystem) (path : string)
  (options : ValidateOptions) (now : string) : ValidationSummary :=
  let results : list ValidationResult := [] in
  if negb (existsSync fs path) then
    createSummary path (push results (path_missing path)) 0 now
  else if negb (isDirectory fs path) then
    createSummary path (push results (path_not_directory path)) 0 now
  else
    let settingsFile := join path "stencil-settings.yml" in
    if negb (existsSync fs settingsFile) then
      createSummary path (push results (settings_missing settingsFile)) 0 now
    else
      let results := validateSettingsFile fs settingsFile results options in
      let allFiles := glob fs path in
      let totalFiles := List.length allFiles in
      let settings := loadStencilSettings fs settingsFile in
      let results :=
        if truthy (Some settings) then
          let results := validateFileReferences fs path settings results in
          validateReferenceIntegrity path settings results
        else results in
      createSummary path results totalFiles now.

(** The exit code of [validateCommand] on the absolute path; what it prints
    is left out.  The calls of [FileSystem] that can throw are caught where
    they are made, so the [catch] of the command is never entered. *)
Definition validateCommand (fs : FileSystem) (absolutePath : string)
  (options : ValidateOptions) (now : string) : nat :=
  let results := validateStencilDefinition fs absolutePath options now in
  determineExitCode results (failOn_string (failOn options)).

(** ** Vocabulary of the properties *)

(** A document passes the schema when parsing it reports no issue. *)
Definition schema_valid (settings : jsval) : Prop :=
  zod_issues StencilSettingsSchema [] (Some settings) = [].

(** The findings a run leaves behind, errors first, as the summary
    partitions them. *)
Definition findings (summary : ValidationSummary) : list ValidationResult :=
  ValidationSummary.errors summary
  ++ ValidationSummary.warnings summary
  ++ ValidationSummary.info summary.

(** The fatal cases of a run: the root is missing, the root is not a
    directory, the settings document is absent, or the document is there
    and the YAML parser throws on its text. *)
Inductive fatal (fs : FileSystem) (path : string) : Prop :=
| root_missing :
    existsSync fs path = false -> fatal fs path
| root_not_directory :
    existsSync fs path = true -> isDirectory fs path = false -> fatal fs path
| settings_absent :
    existsSync fs path = true -> isDirectory fs path = true ->
    existsSync fs (join path "stencil-settings.yml") = false -> fatal fs path
| parse_failure (content : string) (e : thrown) :
    existsSync fs path = true -> isDirectory fs path = true ->
    existsSync fs (join path "stencil-settings.yml") = true ->
    readFileSync fs (join path "stencil-settings.yml") = Returns content ->
    parseYaml content = Throws e -> fatal fs path.

(** The finding of the reference check for one declared path. *)
Definition reference_finding (fs : FileSystem) (path file : string)
  : ValidationResult :=
  if existsSync fs (join path file)
  then reference_exists (join path file) file
  else reference_missing (join path file) file.

End Engine.

(** The strings among the entries of a sequence. *)
Definition string_items (v : option jsval) : list string :=
  flat_map (fun x => match x with JString s => [s] | _ => [] end) (elements v).

(** A schema error names a field when its message carries the field as the
    path of the issue. *)
Definition names_field (field : string) (r : ValidationResult) : Prop :=
  exists msg,
    ValidationResult.message r
    = ("Schema validation failed: " ++ field ++ " - " ++ msg)%string.

Definition required_fields : list string := ["id"; "name"; "version"; "type"].

Definition all_digits (s : string) : Prop := all_chars is_digit s = true.

(** ** A sample host, for the examples *)

Definition sample_join (a b : string) : string := a ++ "/" ++ b.

(** The name the schema library gives the type of a value. *)
Definition parsed_type (v : jsval) : string :=
  match v with
  | JNull => "null"
  | JBool _ => "boolean"
  | JNumber x => if PrimFloat.eqb x x then "number" else "nan"
  | JString _ => "string"
  | JArray _ => "array"
  | JObject _ => "object"
  end.

(** The schema library's default message for a value of the wrong type. *)
Definition default_invalid_type_message (expected : string)
  (received : option jsval) : string :=
  match received with
  | None => "Required"
  | Some v => "Expected " ++ expected ++ ", received " ++ parsed_type v
  end.

Definition base_fields : list (string * jsval) :=
  [ ("name", JString "Service");
    ("version", JString "1.0.0");
    ("type", JString "service") ].

(** The texts of the settings documents of the examples. *)
Definition doc_declared_files : string :=
  "{id: svc, name: Service, version: '1.0.0', type: service, files: [files/a.txt, files/b.txt]}".

Definition doc_without_id : string :=
  "{name: Service, version: '1.0.0', type: service, files: [files/a.txt], extend: base-template}".

Definition doc_empty_extend : string :=
  "{id: svc, name: Service, version: '1.0.0', type: service, extend: '', include: [common, shared]}".

Definition doc_bad_id : string :=
  "{id: 'Bad ID!', name: Service, version: v1, type: service}".

Definition doc_empty_files : string :=
  "{id: svc, name: Service, version: '1.0.0', type: service, files: []}".

Definition doc_empty : string := "".

Definition doc_malformed : string := "{id: svc".

Definition settings_declared_files : jsval :=
  JObject (("id", JString "svc") :: base_fields
           ++ [("files", JArray [JString "files/a.txt"; JString "files/b.txt"])]).

Definition settings_without_id : jsval :=
  JObject (base_fields
           ++ [("files", JArray [JString "files/a.txt"]);
               ("extend", JString "base-template")]).

Definition settings_empty_extend : jsval :=
  JObject (("id", JString "svc") :: base_fields
           ++ [("extend", JString "");
               ("include", JArray [JString "common"; JString "shared"])]).

Definition settings_bad_id : jsval :=
  JObject [("id", JString "Bad ID!"); ("name", JString "Service");
           ("version", JString "v1"); ("type", JString "service")].

Definition settings_empty_files : jsval :=
  JObject (("id", JString "svc") :: base_fields ++ [("files", JArray [])]).

(** Each document with the value the YAML parser returns for it; the
    empty document parses to [null]. *)
Definition sample_documents : list (string * jsval) :=
  [ (doc_declared_files, settings_declared_files);
    (doc_without_id, settings_without_id);
    (doc_empty_extend, settings_empty_extend);
    (doc_bad_id, settings_bad_id);
    (doc_empty_files, settings_empty_files);
    (doc_empty, JNull) ].

(** A YAML parser that knows the documents of the examples and rejects
    every other text, with one message for all. *)
Definition sample_parseYaml (content : string) : outcome jsval :=
  match find (fun d => String.eqb content (fst d)) sample_documents with
  | Some d => Returns (snd d)
  | None => Throws (ErrorObject "Flow map must end with a }")
  end.

(** A file system with one stencil directory [/stencil]: its settings
    document has the text [content] when there is one, [others] are the
    other files in it, by their paths relative to the directory, none of
    them with a segment that begins with a dot. *)
Definition stencil_fs (content : option string) (others : list string)
  : FileSystem :=
  let settingsFile := "/stencil/stencil-settings.yml" in
  let other_paths := map (sample_join "/stencil") others in
  {| existsSync p :=
       String.eqb p "/stencil"
       || (match content with Some _ => String.eqb p settingsFile | None => false end)
       || existsb (String.eqb p) other_paths;
     isDirectory p := String.eqb p "/stencil";
     readFileSync p :=
       match content with
       | Some c =>
           if String.eqb p settingsFile then Returns c
           else if existsb (String.eqb p) other_paths then Returns ""
           else Throws (ErrorObject "ENOENT: no such file or directory")
       | None =>
           if existsb (String.eqb p) other_paths then Returns ""
           else Throws (ErrorObject "ENOENT: no such file or directory")
       end;
     glob p :=
       if String.eqb p "/stencil"
       then (match content with Some _ => ["stencil-settings.yml"] | None => [] end)
            ++ others
       else [] |}.

Definition default_options : ValidateOptions :=
  {| format := text; failOn := fail_error; strict := None; ignore := None |}.

Definition strict_options : ValidateOptions :=
  {| format := text; failOn := fail_warn; strict := Some true; ignore := None |}.

(** A run of the engine on the sample host. *)
Definition sample_run (fs : FileSystem) (options : ValidateOptions)
  : ValidationSummary :=
  validateStencilDefinition sample_join sample_parseYaml
    default_invalid_type_message fs "/stencil" options
    "2025-01-01T00:00:00.000Z".

(** The exit code of the command on the sample host. *)
Definition sample_command (fs : FileSystem) (options : ValidateOptions) : nat :=
  validateCommand sample_join sample_parseYaml
    default_invalid_type_message fs "/stencil" options
    "2025-01-01T00:00:00.000Z".

(** ** The shape of a settings document, field by field *)

(** [typeof x === 'string']. *)
Definition is_str (x : jsval) : bool :=
  match x with
  | JString _ => true
  | _ => false
  end.

(** A string of one character or more. *)
Definition nonempty_string (v : option jsval) : bool :=
  match v with
  | Some (JString (String _ _)) => true
  | _ => false
  end.

(** A field that may be absent, and satisfies [p] when it is there. *)
Definition optional (p : jsval -> bool) (v : option jsval) : bool :=
  match v with
  | None => true
  | Some x => p x
  end.

(** A sequence of strings. *)
Definition string_array (x : jsval) : bool :=
  match x with
  | JArray xs => forallb is_str xs
  | _ => false
  end.

Definition is_mapping (x : jsval) : bool :=
  match x with
  | JObject _ => true
  | _ => false
  end.

(** The shape of [StencilSettings]: a mapping with the four required
    fields non-empty strings, [description] and [extend] strings, [files]
    and [include] sequences of strings, [variables] and [metadata]
    mappings, each of the six absent or of that type. *)
Definition well_formed_settings (settings : jsval) : bool :=
  match settings with
  | JObject fields =>
      nonempty_string (lookup "id" fields)
      && nonempty_string (lookup "name" fields)
      && nonempty_string (lookup "version" fields)
      && nonempty_string (lookup "type" fields)
      && optional is_str (lookup "description" fields)
      && optional string_array (lookup "files" fields)
      && optional string_array (lookup "include" fields)
      && optional is_str (lookup "extend" fields)
      && optional is_mapping (lookup "variables" fields)
      && optional is_mapping (lookup "metadata" fields)
  | _ => false
  end.

(** The shape an object schema was built from. *)
Definition shape_of (t : ZodType) : list (string * ZodType) :=
  match t with
  | z_object shape => shape
  | _ => []
  end.

(** A string that begins with digits, a dot, digits, a dot and digits. *)
Definition semver_prefix (s : string) : Prop :=
  exists a b c rest,
    s = (a ++ "." ++ b ++ "." ++ c ++ rest)%string
    /\ a <> "" /\ all_digits a
    /\ b <> "" /\ all_digits b
    /\ c <> "" /\ all_digits c.

(** The characters of the class [[a-z0-9-_]], written out. *)
Definition id_alphabet : string := "abcdefghijklmnopqrstuvwxyz0123456789-_".

(** ** The directory walk *)

(** A directory as the walk sees it: regular files and sub-directories,
    by name.  Symbolic links are left out. *)
Inductive Tree : Type :=
| TFile
| TDir (entries : list (string * Tree)).

(** The regular files of a tree, each by the segments of its path from
    the root of the tree. *)
Fixpoint file_paths (t : Tree) : list (list string) :=
  match t with
  | TFile => [[]]
  | TDir entries =>
      (fix each (entries : list (string * Tree)) : list (list string) :=
         match entries with
         | [] => []
         | (name, sub) :: rest =>
             map (cons name) (file_paths sub) ++ each rest
         end) entries
  end.

(** A name that begins with a dot. *)
Definition hidden (name : string) : bool :=
  match name with
  | String c _ => Ascii.eqb c "."
  | EmptyString => false
  end.

(** A path none of whose segments begins with a dot. *)
Definition visible (p : list string) : bool :=
  forallb (fun name => negb (hidden name)) p.

(** The walk of [**/*] with [nodir]: it goes down the directories,
    passes over every entry whose name begins with a dot ([dot] is off
    unless it is asked for), and returns the regular files it comes to. *)
Fixpoint walk (t : Tree) : list (list string) :=
  match t with
  | TFile => [[]]
  | TDir entries =>
      (fix each (entries : list (string * Tree)) : list (list string) :=
         match entries with
         | [] => []
         | (name, sub) :: rest =>
             (if hidden name then [] else map (cons name) (walk sub))
             ++ each rest
         end) entries
  end.

(** The segments of a path, with slashes between them. *)
Fixpoint join_slash (p : list string) : string :=
  match p with
  | [] => ""
  | [name] => name
  | name :: rest => name ++ "/" ++ join_slash rest
  end.

(** [glob('**/*', { cwd, nodir: true })] for the directory [dir] at [cwd]:
    the paths of the walk, relative to the directory. *)
Definition glob_nodir (dir : Tree) : list string :=
  map join_slash (walk dir).

(** Every entry below the root of a tree, with whether it is a
    directory. *)
Fixpoint entry_paths (t : Tree) : list (list string * bool) :=
  match t with
  | TFile => []
  | TDir entries =>
      (fix each (entries : list (string * Tree)) : list (list string * bool) :=
         match entries with
         | [] => []
         | (name, sub) :: rest =>
             ([name], match sub with TDir _ => true | TFile => false end)
             :: map (fun e => (name :: fst e, snd e)) (entry_paths sub)
             ++ each rest
         end) entries
  end.

(** ** The init command *)

(** What a path holds on a disk that can be written. *)
Inductive Entry : Type :=
| File (content : string)
| Directory.

Definition Disk : Type := string -> option Entry.

(** [existsSync(p)] on a disk. *)
Definition disk_exists (disk : Disk) (p : string) : bool :=
  match disk p with
  | Some _ => true
  | None => false
  end.

(** The disk after a write of [content] to [p] that went through. *)
Definition disk_write (disk : Disk) (p content : string) : Disk :=
  fun q => if String.eqb q p then Some (File content) else disk q.

Record InitOptions : Type := {
  force : option bool
}.

(** The disk [initCommand] leaves and how it ends: with a return when
    [exit_code] and [uncaught] are [None], with [process.exit(code)] for
    [exit_code] [Some code], with an exception that nothing catches for
    [uncaught] [Some e]. *)
Record InitResult : Type := {
  disk_after : Disk;
  exit_code : option nat;
  uncaught : option thrown
}.

Definition double_quote : string := String "034"%char "".
Definition line_feed : string := String "010"%char "".

(** [JSON.stringify(defaultConfig, null, 2)], [created] being the reading
    of the clock. *)
Definition defaultConfig_json (created : string) : string :=
  let q := double_quote in
  let nl := line_feed in
  "{" ++ nl
  ++ "  " ++ q ++ "name" ++ q ++ ": " ++ q ++ "My Promarker Project" ++ q ++ "," ++ nl
  ++ "  " ++ q ++ "version" ++ q ++ ": " ++ q ++ "1.0.0" ++ q ++ "," ++ nl
  ++ "  " ++ q ++ "markers" ++ q ++ ": []," ++ nl
  ++ "  " ++ q ++ "created" ++ q ++ ": " ++ q ++ created ++ q ++ nl
  ++ "}".

(** How a call of [writeFileSync] goes: the content is written, or an
    exception is thrown.  The file is opened for writing, which empties
    it, before anything is written: [reached] is [None] for an exception
    at the opening (no permission, a directory in the way, a missing
    parent), and is the part of the content that got into the file, none
    of it maybe, for an exception after the opening. *)
Inductive WriteResult : Type :=
| Written
| WriteFailed (e : thrown) (reached : option string).

Section Init.

(** [resolve] of the path library and [process.cwd()], which throws when
    the current directory is gone. *)
Variable resolve : string -> string -> string.
Variable cwd : outcome string.

(** How [writeFileSync] goes for a disk, a path and a content. *)
Variable write_result : Disk -> string -> string -> WriteResult.

(** The disk after [writeFileSync(p, content)], and the exception when it
    throws. *)
Definition writeFileSync (disk : Disk) (p content : string)
  : Disk * option thrown :=
  match write_result disk p content with
  | Written => (disk_write disk p content, None)
  | WriteFailed e None => (disk, Some e)
  | WriteFailed e (Some part) => (disk_write disk p part, Some e)
  end.

(** [initCommand], without what it prints.  [process.cwd()] is called
    outside the [try]: its exception ends the command. *)
Definition initCommand (disk : Disk) (options : InitOptions) (now : string)
  : InitResult :=
  let configFileName := ".promarker.json" in
  match cwd with
  | Throws e => {| disk_after := disk; exit_code := None; uncaught := Some e |}
  | Returns currentDir =>
      let configPath := resolve currentDir configFileName in
      if disk_exists disk configPath
         && negb (match force options with Some true => true | _ => false end)
      then {| disk_after := disk; exit_code := None; uncaught := None |}
      else
        match writeFileSync disk configPath (defaultConfig_json now) with
        | (disk', None) =>
            {| disk_after := disk'; exit_code := None; uncaught := None |}
        | (disk', Some _) =>
            {| disk_after := disk'; exit_code := Some 1; uncaught := None |}
        end
  end.

End Init.

(** ** The doctor command *)

Inductive Status : Type := pass | warn | fail.

Module EnvironmentCheck.
Record t : Type := {
  name : string;
  status : Status;
  message : string;
  details : option string
}.
End EnvironmentCheck.

Abbreviation EnvironmentCheck := EnvironmentCheck.t.

(** What the doctor asks of the process and the machine. *)
Record Environment : Type := {
  (** [process.version] *)
  process_version : string;
  (** [parseInt(s)] *)
  parseInt : string -> float;
  (** [require('../../package.json')] and [require('../package.json')] *)
  require_built : outcome jsval;
  require_source : outcome jsval;
  (** the fallback: the two imports, [resolve(__dirname, ...)], the read
      and [JSON.parse]; the package and its path *)
  require_fallback : outcome (jsval * string);
  (** the text of a value in a template literal *)
  to_text : option jsval -> string;
  (** [execSync('which promarker', { encoding: 'utf8' })] and [trim] *)
  which_promarker : outcome string;
  trim : string -> string;
  (** [process.cwd()] *)
  process_cwd : outcome string;
  (** [resolve] of the path library and [existsSync] *)
  env_resolve : string -> string -> string;
  env_existsSync : string -> bool;
  (** the import of [fs/promises] and [fs.access(dir, fs.constants.R_OK)] *)
  access_read : string -> outcome unit
}.

Definition push_check (checks : list EnvironmentCheck) (c : EnvironmentCheck)
  : list EnvironmentCheck :=
  checks ++ [c].

(** [s.slice(1)]. *)
Definition slice1 (s : string) : string :=
  match s with
  | EmptyString => EmptyString
  | String _ rest => rest
  end.

(** [s.split('.')[0]]: what comes before the first dot. *)
Fixpoint before_dot (s : string) : string :=
  match s with
  | EmptyString => EmptyString
  | String c rest =>
      if Ascii.eqb c "." then EmptyString else String c (before_dot rest)
  end.

(** The text of a count in a template literal. *)
Definition count_text (n : nat) : string :=
  NilEmpty.string_of_uint (Nat.to_uint n).

(** [v.version]: a [TypeError] when [v] is [null]. *)
Definition version_of (v : jsval) : outcome (option jsval) :=
  match v with
  | JNull => Throws (ErrorObject "Cannot read properties of null (reading 'version')")
  | _ => Returns (prop v "version")
  end.

Definition checkNodeVersion (env : Environment) (checks : list EnvironmentCheck)
  : list EnvironmentCheck :=
  let nodeVersion := process_version env in
  let majorVersion := parseInt env (before_dot (slice1 nodeVersion)) in
  if PrimFloat.leb 18%float majorVersion then
    push_check checks
      {| EnvironmentCheck.name := "Node.js Version";
         EnvironmentCheck.status := pass;
         EnvironmentCheck.message := "Node.js " ++ nodeVersion ++ " (compatible)";
         EnvironmentCheck.details := Some "Minimum required: Node.js 18+" |}
  else
    push_check checks
      {| EnvironmentCheck.name := "Node.js Version";
         EnvironmentCheck.status := fail;
         EnvironmentCheck.message := "Node.js " ++ nodeVersion ++ " (incompatible)";
         EnvironmentCheck.details := Some "Please upgrade to Node.js 18 or higher" |}.

(** The package found by the three attempts, with the path it was found
    at, or the exception of the last attempt. *)
Definition find_package (env : Environment) : outcome (jsval * string) :=
  match require_built env with
  | Returns packageJson => Returns (packageJson, "../../package.json")
  | Throws _ =>
      match require_source env with
      | Returns packageJson => Returns (packageJson, "../package.json")
      | Throws _ => require_fallback env
      end
  end.

Definition cli_unknown : EnvironmentCheck :=
  {| EnvironmentCheck.name := "CLI Installation";
     EnvironmentCheck.status := warn;
     EnvironmentCheck.message :=
       "Could not determine CLI version (running from built files)";
     EnvironmentCheck.details :=
       Some "CLI appears to be functional but version info unavailable" |}.

Definition checkCliInstallation (env : Environment)
  (checks : list EnvironmentCheck) : list EnvironmentCheck :=
  match find_package env with
  | Throws _ => push_check checks cli_unknown
  | Returns (packageJson, packagePath) =>
      match version_of packageJson with
      | Throws _ => push_check checks cli_unknown
      | Returns version =>
          let checks :=
            push_check checks
              {| EnvironmentCheck.name := "CLI Installation";
                 EnvironmentCheck.status := pass;
                 EnvironmentCheck.message :=
                   "ProMarker CLI v" ++ to_text env version
                   ++ " installed correctly";
                 EnvironmentCheck.details :=
                   Some ("Package found at: " ++ packagePath)%string |} in
          match which_promarker env with
          | Returns out =>
              let whichPromarker := trim env out in
              push_check checks
                {| EnvironmentCheck.name := "Command Availability";
                   EnvironmentCheck.status := pass;
                   EnvironmentCheck.message :=
                     "promarker command is available in PATH";
                   EnvironmentCheck.details :=
                     Some ("Location: " ++ whichPromarker)%string |}
          | Throws _ =>
              push_check checks
                {| EnvironmentCheck.name := "Command Availability";
                   EnvironmentCheck.status := warn;
                   EnvironmentCheck.message :=
                     "promarker command not found in PATH";
                   EnvironmentCheck.details :=
                     Some ("You may need to run " ++ double_quote ++ "npm link"
                           ++ double_quote ++ " or install globally")%string |}
          end
      end
  end.

(** Nothing catches an exception of [process.cwd()] here: it ends the
    command. *)
Definition checkCurrentDirectory (env : Environment)
  (checks : list EnvironmentCheck) : outcome (list EnvironmentCheck) :=
  match process_cwd env with
  | Throws e => Throws e
  | Returns currentDir =>
      let stencilSettings := env_resolve env currentDir "stencil-settings.yml" in
      let checks :=
        if env_existsSync env stencilSettings then
          push_check checks
            {| EnvironmentCheck.name := "Current Directory";
               EnvironmentCheck.status := pass;
               EnvironmentCheck.message :=
                 "stencil-settings.yml found in current directory";
               EnvironmentCheck.details :=
                 Some "This appears to be a valid stencil directory" |}
        else
          push_check checks
            {| EnvironmentCheck.name := "Current Directory";
               EnvironmentCheck.status := warn;
               EnvironmentCheck.message :=
                 "No stencil-settings.yml found in current directory";
               EnvironmentCheck.details :=
                 Some "Navigate to a stencil directory or specify path when validating" |} in
      let filesDir := env_resolve env currentDir "files" in
      Returns
        (if env_existsSync env filesDir then
           push_check checks
             {| EnvironmentCheck.name := "Files Directory";
                EnvironmentCheck.status := pass;
                EnvironmentCheck.message := "files/ directory found";
                EnvironmentCheck.details :=
                  Some "Template files directory exists" |}
         else
           push_check checks
             {| EnvironmentCheck.name := "Files Directory";
                EnvironmentCheck.status := warn;
                EnvironmentCheck.message := "No files/ directory found";
                EnvironmentCheck.details :=
                  Some "Stencil may explicitly list files or use a different structure" |})
  end.

Definition checkFilePermissions (env : Environment)
  (checks : list EnvironmentCheck) : list EnvironmentCheck :=
  match process_cwd env with
  | Throws err =>
      push_check checks
        {| EnvironmentCheck.name := "File Permissions";
           EnvironmentCheck.status := warn;
           EnvironmentCheck.message := "Could not verify file permissions";
           EnvironmentCheck.details := Some (message_of err "Unknown error") |}
  | Returns currentDir =>
      match access_read env currentDir with
      | Returns _ =>
          push_check checks
            {| EnvironmentCheck.name := "File Permissions";
               EnvironmentCheck.status := pass;
               EnvironmentCheck.message :=
                 "Read access to current directory confirmed";
               EnvironmentCheck.details := Some "CLI can read stencil files" |}
      | Throws _ =>
          push_check checks
            {| EnvironmentCheck.name := "File Permissions";
               EnvironmentCheck.status := fail;
               EnvironmentCheck.message := "Cannot read current directory";
               EnvironmentCheck.details :=
                 Some "Check file permissions for the current directory" |}
      end
  end.

Definition Status_eqb (a b : Status) : bool :=
  match a, b with
  | pass, pass | warn, warn | fail, fail => true
  | _, _ => false
  end.

Definition has_status (s : Status) (c : EnvironmentCheck) : bool :=
  Status_eqb (EnvironmentCheck.status c) s.

Definition icon_of (s : Status) : string :=
  match s with
  | pass => "✅"
  | warn => "⚠️ "
  | fail => "❌"
  end.

(** The lines printed for one check: the check, and its details when
    they are not empty. *)
Definition check_lines (check : EnvironmentCheck) : list string :=
  (icon_of (EnvironmentCheck.status check) ++ " "
   ++ EnvironmentCheck.name check ++ ": " ++ EnvironmentCheck.message check)%string
  :: match EnvironmentCheck.details check with
     | Some (String c d) => [("   " ++ String c d)%string]
     | _ => []
     end.

Definition ready_line : string :=
  line_feed ++ "🎉 Environment is ready for ProMarker CLI!".

Definition address_line : string :=
  line_feed ++ "⚠️  Please address the failed checks above".

(** The lines [printDoctorResults] prints, without their colours; an empty
    string is an empty line. *)
Definition printDoctorResults (checks : list EnvironmentCheck) : list string :=
  let passCount := List.length (filter (has_status pass) checks) in
  let warnCount := List.length (filter (has_status warn) checks) in
  let failCount := List.length (filter (has_status fail) checks) in
  [""]
  ++ flat_map check_lines checks
  ++ [""; "📊 Summary:"; ("✅ " ++ count_text passCount ++ " passed")%string]
  ++ (if Nat.ltb 0 warnCount
      then [("⚠️  " ++ count_text warnCount ++ " warnings")%string] else [])
  ++ (if Nat.ltb 0 failCount
      then [("❌ " ++ count_text failCount ++ " failed")%string] else [])
  ++ [if Nat.eqb failCount 0 then ready_line else address_line].

Definition doctor_header : list string :=
  [ (line_feed ++ "🔧 ProMarker CLI Environment Check")%string;
    "===================================" ].

Definition doctor_footer : list string :=
  [ (line_feed ++ "📋 Phase 2 Preparation:")%string;
    "• Local ProMarker server integration will be added in future versions";
    "• Current version focuses on validation-only functionality";
    "• Generation features will be server-side only" ].

(** The checks [doctorCommand] makes, in order; an exception of
    [process.cwd()] in the third ends the command. *)
Definition doctor_checks (env : Environment)
  : outcome (list EnvironmentCheck) :=
  let checks : list EnvironmentCheck := [] in
  let checks := checkNodeVersion env checks in
  let checks := checkCliInstallation env checks in
  match checkCurrentDirectory env checks with
  | Throws e => Throws e
  | Returns checks => Returns (checkFilePermissions env checks)
  end.

(** What [doctorCommand] has printed when it ends, and the exception it
    ends with when nothing catches one. *)
Record DoctorResult : Type := {
  printed : list string;
  ended_with : option thrown
}.

(** The header is printed before the checks are made, the report and the
    closing notes after them. *)
Definition doctorCommand (env : Environment) : DoctorResult :=
  match doctor_checks env with
  | Throws e => {| printed := doctor_header; ended_with := Some e |}
  | Returns checks =>
      {| printed :=
           doctor_header ++ printDoctorResults checks ++ doctor_footer;
         ended_with := None |}
  end.

(** ** More of the sample host *)

Definition doc_empty_id : string :=
  "{id: '', name: Service, version: '1.0.0', type: service}".

Definition doc_number_entry : string :=
  "{id: svc, name: Service, version: '1.0.0', type: service, files: [files/a.txt, 7]}".

Definition doc_sequence : string := "[a, b]".

Definition settings_empty_id : jsval :=
  JObject (("id", JString "") :: base_fields).

Definition settings_number_entry : jsval :=
  JObject (("id", JString "svc") :: base_fields
           ++ [("files", JArray [JString "files/a.txt"; JNumber 7%float])]).

Definition settings_short_version : jsval :=
  JObject [("id", JString "svc"); ("name", JString "Service");
           ("version", JString "v1.0"); ("type", JString "service")].

(** The sample parser with three documents more. *)
Definition extended_parseYaml (content : string) : outcome jsval :=
  if String.eqb content doc_empty_id then Returns settings_empty_id
  else if String.eqb content doc_number_entry then Returns settings_number_entry
  else if String.eqb content doc_sequence
       then Returns (JArray [JString "a"; JString "b"])
  else sample_parseYaml content.

(** The stencil directory with a settings document that is there and
    cannot be read. *)
Definition unreadable_fs : FileSystem :=
  {| existsSync p :=
       String.eqb p "/stencil" || String.eqb p "/stencil/stencil-settings.yml";
     isDirectory p := String.eqb p "/stencil";
     readFileSync p := Throws (ErrorObject "EACCES: permission denied");
     glob p := if String.eqb p "/stencil" then ["stencil-settings.yml"] else [] |}.

Definition json_options : ValidateOptions :=
  {| format := json; failOn := fail_none; strict := None;
     ignore := Some ["**/*.bak"] |}.

(** An empty project directory [/project], and the same with a
    configuration file in it. *)
Definition empty_disk : Disk :=
  fun p => if String.eqb p "/project" then Some Directory else None.

Definition initialized_disk : Disk :=
  disk_write empty_disk "/project/.promarker.json" "{}".

Definition always_written (disk : Disk) (p content : string) : WriteResult :=
  Written.

(** A disk that is full: the file is opened, and emptied, and the write
    throws. *)
Definition disk_full (disk : Disk) (p content : string) : WriteResult :=
  WriteFailed (ErrorObject "ENOSPC: no space left on device") (Some "").

(** A machine for the doctor: Node.js of the version given, the package
    found at the second attempt, no [promarker] on the path, the current
    directory [/stencil] without a stencil in it, readable or not. *)
Definition sample_environment (version : string) (readable : bool)
  : Environment :=
  {| process_version := version;
     parseInt s :=
       if String.eqb s "20" then 20%float
       else if String.eqb s "16" then 16%float
       else nan;
     require_built := Throws (ErrorObject "Cannot find module '../../package.json'");
     require_source := Returns (JObject [("version", JString "0.1.0")]);
     require_fallback := Throws (ErrorObject "__dirname is not defined");
     to_text := as_string;
     which_promarker := Throws (ErrorObject "Command failed: which promarker");
     trim s := s;
     process_cwd := Returns "/stencil";
     env_resolve := sample_join;
     env_existsSync p := false;
     access_read p :=
       if readable then Returns tt
       else Throws (ErrorObject "EACCES: permission denied") |}.

(** A stencil directory with a settings document, one template, a
    dotfile and a dot-directory. *)
Definition sample_tree : Tree :=
  TDir [ ("stencil-settings.yml", TFile);
         ("files", TDir [("a.txt", TFile)]);
         (".env", TFile);
         (".git", TDir [("config", TFile)]) ].

(** The file system that has the directory [dir] at [/stencil], the
    settings document in it, if there is one, with the text [content]. *)
Definition tree_fs (content : string) (dir : Tree) : FileSystem :=
  let at_path (e : list string * bool) (p : string) :=
    String.eqb p (sample_join "/stencil" (join_slash (fst e))) in
  {| existsSync p :=
       String.eqb p "/stencil"
       || existsb (fun e => at_path e p) (entry_paths dir);
     isDirectory p :=
       String.eqb p "/stencil"
       || existsb (fun e => at_path e p && snd e) (entry_paths dir);
     readFileSync p :=
       if String.eqb p "/stencil/stencil-settings.yml"
          && existsb (fun e => at_path e p && negb (snd e)) (entry_paths dir)
       then Returns content
       else Throws (ErrorObject "ENOENT: no such file or directory");
     glob p := if String.eqb p "/stencil" then glob_nodir dir else [] |}.

(** ** The regular expressions, by what they accept *)

Lemma id_regex_test_spec (s : string) :
  id_regex_test s = true <-> s <> "" /\ all_chars id_char s = true.
Proof.
  destruct s as [|c s]; simpl; split.
  - discriminate.
  - intros [H _]. now elim H.
  - intros H. split; [discriminate | exact H].
  - intros [_ H]. exact H.
Qed.

Lemma digits1_some (s r : string) :
  digits1 s = Some r ->
  exists d, s = (d ++ r)%string /\ d <> "" /\ all_digits d.
Proof.
  destruct s as [|c s]; simpl; [discriminate|].
  destruct (is_digit c) eqn:Hc; [|discriminate].
  intros H. injection H as <-.
  assert (Hs : exists d, s = (d ++ skip_digits s)%string /\ all_digits d).
  { clear c Hc. induction s as [|c s IH]; simpl.
    - now exists "".
    - destruct (is_digit c) eqn:Hc.
      + destruct IH as (d & Hd & Hall).
        exists (String c d). split.
        * simpl. now rewrite <- Hd.
        * unfold all_digits. simpl. now rewrite Hc.
      + now exists "". }
  destruct Hs as (d & Hd & Hall).
  exists (String c d). repeat split.
  - simpl. now rewrite <- Hd.
  - discriminate.
  - unfold all_digits. simpl. now rewrite Hc.
Qed.

Lemma dot1_some (s r : string) :
  dot1 s = Some r <-> s = String "." r.
Proof.
  destruct s as [|c s]; simpl; split; try discriminate.
  - destruct (Ascii.eqb_spec c "."); [|discriminate].
    intros H. injection H as <-. now subst.
  - intros H. injection H as -> ->. reflexivity.
Qed.

Lemma skip_digits_dot (d r : string) :
  all_digits d -> skip_digits (d ++ String "." r) = String "." r.
Proof.
  unfold all_digits. induction d as [|c d IH]; simpl; intros H.
  - reflexivity.
  - apply andb_true_iff in H. destruct H as [Hc Hd].
    rewrite Hc. now apply IH.
Qed.

Lemma digits1_dot (d r : string) :
  d <> "" -> all_digits d ->
  digits1 (d ++ String "." r) = Some (String "." r).
Proof.
  unfold all_digits. destruct d as [|c d]; [now intros H; elim H|].
  simpl. intros _ H. apply andb_true_iff in H. destruct H as [Hc Hd].
  rewrite Hc. f_equal. now apply skip_digits_dot.
Qed.

(** The test on the version accepts exactly the strings that begin with
    digits, a dot, digits, a dot and digits. *)
Lemma version_regex_test_spec (s : string) :
  version_regex_test s = true <->
  exists a b c rest,
    s = (a ++ "." ++ b ++ "." ++ c ++ rest)%string
    /\ a <> "" /\ all_digits a
    /\ b <> "" /\ all_digits b
    /\ c <> "" /\ all_digits c.
Proof.
  unfold version_regex_test. split.
  - destruct (digits1 s) as [s1|] eqn:H1; [|discriminate].
    destruct (dot1 s1) as [s2|] eqn:D1; [|discriminate].
    destruct (digits1 s2) as [s3|] eqn:H2; [|discriminate].
    destruct (dot1 s3) as [s4|] eqn:D2; [|discriminate].
    destruct (digits1 s4) as [s5|] eqn:H3; [|discriminate].
    intros _.
    apply digits1_some in H1, H2, H3.
    apply dot1_some in D1, D2.
    destruct H1 as (a & -> & Ha & Hda).
    destruct H2 as (b & -> & Hb & Hdb).
    destruct H3 as (c & -> & Hc & Hdc).
    subst s1 s3.
    exists a, b, c, s5. repeat split; assumption.
  - intros (a & b & c & rest & -> & Ha & Hda & Hb & Hdb & Hc & Hdc).
    simpl.
    rewrite (digits1_dot a _ Ha Hda). simpl.
    rewrite (digits1_dot b _ Hb Hdb). simpl.
    destruct c as [|x c]; [now elim Hc|].
    unfold all_digits in Hdc. simpl in Hdc.
    apply andb_true_iff in Hdc. destruct Hdc as [Hx _].
    simpl. now rewrite Hx.
Qed.

(** ** Appending and folding *)

Lemma fold_push {A : Type} (f : A -> ValidationResult) (xs : list A)
  (results : list ValidationResult) :
  fold_left (fun results x => push results (f x)) xs results
  = results ++ map f xs.
Proof.
  revert results; induction xs as [|x xs IH]; intros results; simpl.
  - now rewrite app_nil_r.
  - rewrite IH. unfold push. now rewrite <- app_assoc.
Qed.

(** A loop whose body only pushes leaves the initial array as a prefix. *)
Lemma fold_appends {A : Type}
  (body : list ValidationResult -> A -> list ValidationResult)
  (new : A -> list ValidationResult)
  (Hbody : forall results x, body results x = results ++ new x)
  (xs : list A) (results : list ValidationResult) :
  fold_left body xs results = results ++ flat_map new xs.
Proof.
  revert results; induction xs as [|x xs IH]; intros results; simpl.
  - now rewrite app_nil_r.
  - rewrite IH, Hbody. now rewrite <- app_assoc.
Qed.

Lemma flat_map_JString {B : Type} (f : jsval -> list B) (l : list string) :
  flat_map f (map JString l) = flat_map (fun s => f (JString s)) l.
Proof.
  induction l as [|s l IH]; simpl; [reflexivity | now rewrite IH].
Qed.

Lemma flat_map_singleton {A B : Type} (f : A -> B) (l : list A) :
  flat_map (fun x => [f x]) l = map f l.
Proof.
  induction l as [|x l IH]; simpl; [reflexivity | now rewrite IH].
Qed.

Lemma string_items_strings (l : list string) :
  string_items (Some (JArray (map JString l))) = l.
Proof.
  unfold string_items. simpl. rewrite flat_map_JString.
  rewrite flat_map_singleton. apply map_id.
Qed.

(** ** The schema *)

Section Schema.

Variable invalid_type_message : string -> option jsval -> string.

Lemma string_array_valid (p : list PathSegment) (v : option jsval) :
  zod_issues invalid_type_message (z_optional (z_array (z_string None))) p v = [] ->
  v = None \/ exists l, v = Some (JArray (map JString l)).
Proof.
  intros H. destruct v as [v|]; [right | now left].
  destruct v; try discriminate.
  simpl in H. revert H. generalize 0 as i.
  induction xs as [|x xs IH]; intros i H.
  - now exists [].
  - apply app_eq_nil in H. destruct H as [Hx Hr].
    destruct (IH _ Hr) as [l Hl]. injection Hl as ->.
    destruct x; try discriminate. now exists (s :: l).
Qed.

Lemma required_string_valid (p : list PathSegment) (msg : string)
  (v : option jsval) :
  zod_issues invalid_type_message (z_string (Some (1, msg))) p v = [] ->
  exists s, v = Some (JString s) /\ s <> "".
Proof.
  destruct v as [[]|]; try discriminate.
  simpl. destruct s; [discriminate|].
  intros _. eexists. split; [reflexivity | discriminate].
Qed.

Lemma optional_string_valid (p : list PathSegment) (v : option jsval) :
  zod_issues invalid_type_message (z_optional (z_string None)) p v = [] ->
  v = None \/ exists s, v = Some (JString s).
Proof.
  intros H. destruct v as [[]|]; try discriminate; [right | now left].
  now exists s.
Qed.

(** What a document that passes the schema looks like, for the fields the
    later checks read. *)
Lemma schema_valid_inv (settings : jsval) :
  schema_valid invalid_type_message settings ->
  exists fields,
    settings = JObject fields
    /\ (exists s, lookup "id" fields = Some (JString s) /\ s <> "")
    /\ (exists s, lookup "version" fields = Some (JString s) /\ s <> "")
    /\ (lookup "description" fields = None
        \/ exists s, lookup "description" fields = Some (JString s))
    /\ (lookup "files" fields = None
        \/ exists l, lookup "files" fields = Some (JArray (map JString l)))
    /\ (lookup "include" fields = None
        \/ exists l, lookup "include" fields = Some (JArray (map JString l)))
    /\ (lookup "extend" fields = None
        \/ exists s, lookup "extend" fields = Some (JString s)).
Proof.
  unfold schema_valid, StencilSettingsSchema.
  destruct settings; try discriminate.
  cbn [zod_issues app]. intros H.
  exists fields. split; [reflexivity|].
  apply app_eq_nil in H; destruct H as [Hid H].
  apply app_eq_nil in H; destruct H as [_ H].
  apply app_eq_nil in H; destruct H as [Hversion H].
  apply app_eq_nil in H; destruct H as [_ H].
  apply app_eq_nil in H; destruct H as [Hdescription H].
  apply app_eq_nil in H; destruct H as [Hfiles H].
  apply app_eq_nil in H; destruct H as [Hinclude H].
  apply app_eq_nil in H; destruct H as [Hextend _].
  repeat split.
  - exact (required_string_valid _ _ _ Hid).
  - exact (required_string_valid _ _ _ Hversion).
  - exact (optional_string_valid _ _ Hdescription).
  - exact (string_array_valid _ _ Hfiles).
  - exact (string_array_valid _ _ Hinclude).
  - exact (optional_string_valid _ _ Hextend).
Qed.

Lemma lookup_zod_output (k : string) (shape : list (string * ZodType))
  (fields : list (string * jsval)) :
  prop (zod_output (z_object shape) (JObject fields)) k
  = if existsb (fun kt => String.eqb k (fst kt)) shape
    then lookup k fields else None.
Proof.
  simpl. induction shape as [|[k' t] shape IH]; simpl; [reflexivity|].
  destruct (String.eqb_spec k k') as [->|Hk].
  - destruct (lookup k' fields) as [v|] eqn:E; simpl.
    + now rewrite String.eqb_refl.
    + rewrite IH. now destruct (existsb _ shape).
  - destruct (lookup k' fields) as [v|] eqn:E; simpl.
    + apply String.eqb_neq in Hk. now rewrite Hk.
    + exact IH.
Qed.

End Schema.

(** ** The checks, by what they append *)

Section Checks.

Variable join : string -> string -> string.
Variable parseYaml : string -> outcome jsval.
Variable invalid_type_message : string -> option jsval -> string.

Lemma check_file_appends (fs : FileSystem) (path : string)
  (results : list ValidationResult) (file : jsval) :
  check_file join fs path results file
  = results ++ match file with
               | JString file => [reference_finding join fs path file]
               | _ => []
               end.
Proof.
  unfold check_file, reference_finding, push.
  destruct file; simpl; try now rewrite app_nil_r.
  now destruct (existsSync fs (join path s)).
Qed.

Lemma report_include_appends (path : string)
  (results : list ValidationResult) (include : jsval) :
  report_include join path results include
  = results ++ match include with
               | JString include => [include_warning join path include]
               | _ => []
               end.
Proof.
  unfold report_include, push.
  destruct include; simpl; try now rewrite app_nil_r.
  reflexivity.
Qed.

(** The reference check on a list of declared paths: one finding for each,
    in the order of the list. *)
Lemma validateFileReferences_files (fs : FileSystem) (path : string)
  (settings : jsval) (files : list string) (results : list ValidationResult) :
  prop settings "files" = Some (JArray (map JString files)) ->
  validateFileReferences join fs path settings results
  = results ++ map (reference_finding join fs path) files.
Proof.
  intros Hfiles. unfold validateFileReferences.
  destruct settings; try discriminate. simpl in *.
  rewrite Hfiles. simpl.
  rewrite (fold_appends _ _ (fun r x => check_file_appends fs path r x)).
  rewrite flat_map_JString. now rewrite flat_map_singleton.
Qed.

Lemma include_loop_appends (path : string) (v : option jsval)
  (results : list ValidationResult) :
  (if truthy v && isArray v
   then fold_left (report_include join path) (elements v) results
   else results)
  = results ++ map (include_warning join path) (string_items v).
Proof.
  unfold string_items.
  destruct v as [[]|]; simpl; rewrite ?andb_false_r, ?app_nil_r;
    try reflexivity.
  rewrite (fold_appends _ _ (fun r x => report_include_appends path r x)).
  f_equal. induction xs as [|x xs IH]; simpl; [reflexivity|].
  rewrite map_app, <- IH. now destruct x.
Qed.

(** The include/extend report, for every document. *)
Lemma validateReferenceIntegrity_appends (path : string) (settings : jsval)
  (results : list ValidationResult) :
  validateReferenceIntegrity join path settings results
  = results
    ++ (if truthy (prop settings "extend") && is_string (prop settings "extend")
        then [extend_warning join path (as_string (prop settings "extend"))]
        else [])
    ++ map (include_warning join path) (string_items (prop settings "include")).
Proof.
  unfold validateReferenceIntegrity.
  destruct (is_object settings) eqn:Hobj; simpl.
  - rewrite include_loop_appends. unfold push.
    destruct (truthy (prop settings "extend") && is_string (prop settings "extend"));
      simpl; now rewrite <- ?app_assoc.
  - destruct settings; try discriminate; simpl; now rewrite app_nil_r.
Qed.

(** The strict-mode pass, for every document. *)
Lemma performStrictValidation_appends (settingsFile : string) (settings : jsval)
  (results : list ValidationResult) :
  is_object settings = true ->
  performStrictValidation settingsFile settings results
  = results
    ++ (if is_string (prop settings "id")
           && negb (id_regex_test (as_string (prop settings "id")))
        then [id_warning settingsFile] else [])
    ++ (if is_string (prop settings "version")
           && negb (version_regex_test (as_string (prop settings "version")))
        then [version_warning settingsFile] else [])
    ++ (if negb (truthy (prop settings "description"))
        then [description_warning settingsFile] else []).
Proof.
  intros Hobj. unfold performStrictValidation, push. rewrite Hobj. simpl.
  destruct (is_string (prop settings "id") && _);
    destruct (is_string (prop settings "version") && _);
    destruct (negb (truthy (prop settings "description")));
    simpl; rewrite <- ?app_assoc; simpl; now rewrite ?app_nil_r.
Qed.

(** The strict-mode pass reads the same three fields from the parsed
    output as the document has. *)
Lemma performStrictValidation_output (settingsFile : string)
  (fields : list (string * jsval)) (results : list ValidationResult) :
  performStrictValidation settingsFile
    (zod_output StencilSettingsSchema (JObject fields)) results
  = performStrictValidation settingsFile (JObject fields) results.
Proof.
  rewrite !performStrictValidation_appends by reflexivity.
  unfold StencilSettingsSchema. now rewrite !lookup_zod_output.
Qed.

(** The reference check, for every document: the declared paths that are
    strings, then the convention directory when [files] is falsy. *)
Lemma validateFileReferences_appends (fs : FileSystem) (path : string)
  (settings : jsval) (results : list ValidationResult) :
  validateFileReferences join fs path settings results
  = results ++ validateFileReferences join fs path settings [].
Proof.
  unfold validateFileReferences.
  destruct (is_object settings); simpl; [|now rewrite app_nil_r].
  rewrite !(fold_appends _ _ (fun r x => check_file_appends fs path r x)).
  unfold push. simpl.
  destruct (truthy (prop settings "files") && isArray (prop settings "files"));
    destruct (negb (truthy (prop settings "files")));
    destruct (existsSync fs (join path "files") && isDirectory fs (join path "files"));
    simpl; rewrite <- ?app_assoc, ?app_nil_r; reflexivity.
Qed.

Lemma validateReferenceIntegrity_frame (path : string) (settings : jsval)
  (results : list ValidationResult) :
  validateReferenceIntegrity join path settings results
  = results ++ validateReferenceIntegrity join path settings [].
Proof.
  now rewrite !validateReferenceIntegrity_appends.
Qed.

(** The settings check only appends. *)
Lemma validateSettingsFile_appends (fs : FileSystem) (settingsFile : string)
  (results : list ValidationResult) (options : ValidateOptions) :
  validateSettingsFile parseYaml invalid_type_message fs settingsFile results options
  = results
    ++ validateSettingsFile parseYaml invalid_type_message fs settingsFile [] options.
Proof.
  unfold validateSettingsFile.
  destruct (readFileSync fs settingsFile) as [content|e]; [|reflexivity].
  destruct (parseYaml content) as [settings|e]; [|reflexivity].
  destruct (safeParse invalid_type_message StencilSettingsSchema settings)
    as [data|issues].
  - unfold push.
    destruct (strict options) as [[]|]; simpl; try reflexivity.
    destruct (is_object data) eqn:Hobj.
    + rewrite (performStrictValidation_appends _ _ results Hobj).
      rewrite (performStrictValidation_appends _ _ [] Hobj).
      simpl. now rewrite <- !app_assoc.
    + unfold performStrictValidation. rewrite Hobj. reflexivity.
  - now rewrite !fold_push.
Qed.

(** A run that finds the settings document: the findings of the settings
    check, then those of the two reference checks when the document
    parses again to a truthy value. *)
Lemma validateStencilDefinition_reached (fs : FileSystem) (path : string)
  (options : ValidateOptions) (now : string) :
  existsSync fs path = true ->
  isDirectory fs path = true ->
  existsSync fs (join path "stencil-settings.yml") = true ->
  validateStencilDefinition join parseYaml invalid_type_message fs path options now
  = let settingsFile := join path "stencil-settings.yml" in
    let settings := loadStencilSettings parseYaml fs settingsFile in
    createSummary path
      (validateSettingsFile parseYaml invalid_type_message fs settingsFile [] options
       ++ (if truthy (Some settings)
           then validateFileReferences join fs path settings []
                ++ validateReferenceIntegrity join path settings []
           else []))
      (List.length (glob fs path)) now.
Proof.
  intros Hroot Hdir Hsettings. unfold validateStencilDefinition.
  rewrite Hroot, Hdir. cbn [negb]. rewrite Hsettings. cbn [negb]. cbv zeta.
  f_equal.
  destruct (truthy (Some (loadStencilSettings parseYaml fs _)));
    [|now rewrite app_nil_r].
  rewrite validateReferenceIntegrity_frame, validateFileReferences_appends.
  now rewrite <- app_assoc.
Qed.

End Checks.

(** ** The directory walk, by what it returns *)

Lemma filter_visible_cons (name : string) (paths : list (list string)) :
  filter visible (map (cons name) paths)
  = if hidden name then [] else map (cons name) (filter visible paths).
Proof.
  induction paths as [|p paths IH]; simpl.
  - now destruct (hidden name).
  - rewrite IH. destruct (hidden name); simpl; [reflexivity|].
    now destruct (visible p).
Qed.

(** The walk returns the regular files whose path has no segment that
    begins with a dot, in the order of the tree. *)
Lemma walk_visible (t : Tree) :
  walk t = filter visible (file_paths t).
Proof.
  revert t. fix IH 1. intros [|entries].
  - reflexivity.
  - simpl. induction entries as [|[name sub] rest IHrest].
    + reflexivity.
    + rewrite filter_app, <- IHrest, filter_visible_cons, <- (IH sub).
      reflexivity.
Qed.

Lemma glob_nodir_length (dir : Tree) :
  List.length (glob_nodir dir)
  = List.length (filter visible (file_paths dir)).
Proof.
  unfold glob_nodir. now rewrite length_map, walk_visible.
Qed.

(** ** The guarantees of the engine *)

Section Guarantees.

Variable join : string -> string -> string.
Variable parseYaml : string -> outcome jsval.
Variable invalid_type_message : string -> option jsval -> string.

Local Abbreviation run :=
  (validateStencilDefinition join parseYaml invalid_type_message).

(** C2.  The exit code is 2 when the summary has an error finding;
    otherwise 1 when [failOn] is ['warn'] and the summary has a warning
    finding; otherwise 0.  This holds of [determineExitCode] for every
    summary and every [failOn] string, and so of the exit code of every
    run of [validateCommand], whose summary lists as errors and warnings
    exactly the findings of that severity. *)
Theorem exit_code_policy :
  (forall (summary : ValidationSummary) (failOn : string),
      determineExitCode summary failOn
      = match ValidationSummary.errors summary with
        | _ :: _ => 2
        | [] =>
            match ValidationSummary.warnings summary with
            | _ :: _ => if String.eqb failOn "warn" then 1 else 0
            | [] => 0
            end
        end)
  /\ (forall (fs : FileSystem) (path : string) (options : ValidateOptions)
        (now : string),
         validateCommand join parseYaml invalid_type_message fs path options now
         = match ValidationSummary.errors (run fs path options now),
                 ValidationSummary.warnings (run fs path options now),
                 failOn options with
           | _ :: _, _, _ => 2
           | [], _ :: _, fail_warn => 1
           | [], _, _ => 0
           end)
  /\ (forall (path : string) (results : list ValidationResult)
        (totalFiles : nat) (now : string) (r : ValidationResult),
         (In r (ValidationSummary.errors (createSummary path results totalFiles now))
          <-> In r results /\ ValidationResult.type r = error)
         /\ (In r (ValidationSummary.warnings (createSummary path results totalFiles now))
             <-> In r results /\ ValidationResult.type r = warning)).
Proof.
  split; [|split].
  - intros summary failOn. unfold determineExitCode.
    destruct (ValidationSummary.errors summary); simpl; [|reflexivity].
    destruct (ValidationSummary.warnings summary); simpl.
    + now rewrite andb_false_r.
    + now rewrite andb_true_r.
  - intros fs path options now. unfold validateCommand, determineExitCode.
    destruct (ValidationSummary.errors (run fs path options now)); simpl;
      [|reflexivity].
    destruct (ValidationSummary.warnings (run fs path options now)); simpl.
    + rewrite andb_false_r. now destruct (failOn options).
    + now destruct (failOn options).
  - intros path results totalFiles now r. simpl. rewrite !filter_In.
    unfold has_type. split; (split; intros [Hin Hty]; split; try exact Hin);
      destruct (ValidationResult.type r); try reflexivity; discriminate.
Qed.

(** C9.  Two runs of the engine on the same file system, root and options
    give the same findings, the same in every field and in the same order,
    and the same [success], [path] and [totalFiles]: the summaries differ
    at most in [validatedAt], the reading of the clock. *)
Theorem validation_deterministic (fs : FileSystem) (path : string)
  (options : ValidateOptions) (now1 now2 : string) :
  ValidationSummary.errors (run fs path options now1)
  = ValidationSummary.errors (run fs path options now2)
  /\ ValidationSummary.warnings (run fs path options now1)
     = ValidationSummary.warnings (run fs path options now2)
  /\ ValidationSummary.info (run fs path options now1)
     = ValidationSummary.info (run fs path options now2)
  /\ ValidationSummary.success (run fs path options now1)
     = ValidationSummary.success (run fs path options now2)
  /\ ValidationSummary.path (run fs path options now1)
     = ValidationSummary.path (run fs path options now2)
  /\ ValidationSummary.totalFiles (run fs path options now1)
     = ValidationSummary.totalFiles (run fs path options now2).
Proof.
  unfold validateStencilDefinition.
  destruct (negb (existsSync fs path)); [now repeat split|].
  destruct (negb (isDirectory fs path)); [now repeat split|].
  destruct (negb (existsSync fs (join path "stencil-settings.yml")));
    now repeat split.
Qed.

(** [totalFiles] is the number of paths the walk of the root returns
    whenever the root exists, is a directory and holds the settings
    document; it is 0 otherwise. *)
Theorem totalFiles_count (fs : FileSystem) (path : string)
  (options : ValidateOptions) (now : string) :
  ValidationSummary.totalFiles (run fs path options now)
  = if existsSync fs path && isDirectory fs path
       && existsSync fs (join path "stencil-settings.yml")
    then List.length (glob fs path)
    else 0.
Proof.
  unfold validateStencilDefinition.
  destruct (existsSync fs path); simpl; [|reflexivity].
  destruct (isDirectory fs path); simpl; [|reflexivity].
  destruct (existsSync fs (join path "stencil-settings.yml")); reflexivity.
Qed.

(** C3, as amended.  With the directory [dir] at the root, [totalFiles]
    is the number of regular files under the root whose path from the
    root has no segment that begins with a dot, which is what the walk
    [glob('**/*', { cwd, nodir: true })] returns: dotfiles and the files
    under dot-directories are not counted.  This holds whenever the root
    exists, is a directory and holds the settings document, whether or
    not the document can be read, parsed or validated; [totalFiles] is 0
    when the root does not exist, is not a directory, or has no settings
    document. *)
Theorem totalFiles_visible_files (fs : FileSystem) (path : string)
  (options : ValidateOptions) (now : string) (dir : Tree) :
  glob fs path = glob_nodir dir ->
  ValidationSummary.totalFiles (run fs path options now)
  = if existsSync fs path && isDirectory fs path
       && existsSync fs (join path "stencil-settings.yml")
    then List.length (filter visible (file_paths dir))
    else 0.
Proof.
  intros Hwalk.
  unfold validateStencilDefinition.
  destruct (existsSync fs path); simpl; [|reflexivity].
  destruct (isDirectory fs path); simpl; [|reflexivity].
  destruct (existsSync fs (join path "stencil-settings.yml")); simpl;
    [|reflexivity].
  rewrite Hwalk. apply glob_nodir_length.
Qed.

(** C4.  In every fatal case (root missing, root not a directory, settings
    document absent, YAML parse failure) the summary has exactly one error
    finding and no warning or info finding; when the YAML parser throws an
    error with message [msg], the [details] of that finding are [msg]. *)
Theorem fatal_single_error (fs : FileSystem) (path : string)
  (options : ValidateOptions) (now : string) :
  fatal join parseYaml fs path ->
  exists r,
    ValidationSummary.errors (run fs path options now) = [r]
    /\ ValidationResult.type r = error
    /\ ValidationSummary.warnings (run fs path options now) = []
    /\ ValidationSummary.info (run fs path options now) = []
    /\ ValidationSummary.success (run fs path options now) = false
    /\ (forall content msg,
           existsSync fs path = true ->
           isDirectory fs path = true ->
           existsSync fs (join path "stencil-settings.yml") = true ->
           readFileSync fs (join path "stencil-settings.yml") = Returns content ->
           parseYaml content = Throws (ErrorObject msg) ->
           ValidationResult.details r = Some msg).
Proof.
  intros Hfatal.
  destruct Hfatal as [Hroot | Hroot Hdir | Hroot Hdir Hsettings
                     | content e Hroot Hdir Hsettings Hread Hparse].
  - exists (path_missing path). unfold validateStencilDefinition.
    rewrite Hroot. simpl. do 5 (split; [reflexivity|]).
    intros; congruence.
  - exists (path_not_directory path). unfold validateStencilDefinition.
    rewrite Hroot, Hdir. simpl. do 5 (split; [reflexivity|]).
    intros; congruence.
  - exists (settings_missing (join path "stencil-settings.yml")).
    unfold validateStencilDefinition.
    rewrite Hroot, Hdir. cbn [negb]. rewrite Hsettings. simpl.
    do 5 (split; [reflexivity|]). intros; congruence.
  - exists (invalid_yaml (join path "stencil-settings.yml") e).
    rewrite validateStencilDefinition_reached by assumption.
    unfold validateSettingsFile, loadStencilSettings.
    rewrite Hread, Hparse. simpl. do 5 (split; [reflexivity|]).
    intros content' msg _ _ _ Hread' Hparse'.
    injection Hread' as <-.
    rewrite Hparse in Hparse'. injection Hparse' as ->. reflexivity.
Qed.

(** C5.  In a document that passes the schema and declares a non-empty
    [files], every entry is a path, and the reference check appends one
    finding for each path, in the order of the declaration: an info finding
    when the path joined to the root exists, an error finding when it does
    not.  So the error findings are the missing entries, one each, in the
    order of the declaration. *)
Theorem reference_check_declared_files (fs : FileSystem) (path : string)
  (settings : jsval) (entries : list jsval) (results : list ValidationResult) :
  schema_valid invalid_type_message settings ->
  prop settings "files" = Some (JArray entries) ->
  entries <> [] ->
  exists files,
    entries = map JString files
    /\ validateFileReferences join fs path settings results
       = results ++ map (reference_finding join fs path) files
    /\ (forall file,
           reference_finding join fs path file
           = if existsSync fs (join path file)
             then {| ValidationResult.path := join path file;
                     ValidationResult.type := info;
                     ValidationResult.message :=
                       "Referenced file exists: " ++ file;
                     ValidationResult.details := None |}
             else {| ValidationResult.path := join path file;
                     ValidationResult.type := error;
                     ValidationResult.message :=
                       "Referenced file does not exist: " ++ file;
                     ValidationResult.details := None |})
    /\ filter (has_type error) (map (reference_finding join fs path) files)
       = map (fun file => reference_missing (join path file) file)
           (filter (fun file => negb (existsSync fs (join path file))) files).
Proof.
  intros Hvalid Hfiles _.
  destruct (schema_valid_inv _ _ Hvalid)
    as (fields & -> & _ & _ & _ & Hdecl & _).
  simpl in Hfiles. destruct Hdecl as [Hnone | [files Hsome]]; [congruence|].
  exists files. split; [congruence|]. split; [|split].
  - now apply validateFileReferences_files.
  - intros file. unfold reference_finding.
    now destruct (existsSync fs (join path file)).
  - clear. induction files as [|file files IH]; simpl; [reflexivity|].
    destruct (existsSync fs (join path file)) eqn:Hexists.
    + replace (reference_finding join fs path file)
        with (reference_exists (join path file) file)
        by (unfold reference_finding; now rewrite Hexists).
      simpl. exact IH.
    + replace (reference_finding join fs path file)
        with (reference_missing (join path file) file)
        by (unfold reference_finding; now rewrite Hexists).
      simpl. now rewrite IH.
Qed.

(** C10.  When [files] is present and is the empty sequence, the reference
    check appends nothing: there is no entry to report on, and the check
    of the [files/] convention directory is skipped, an array being truthy.
    This holds of every document, so of every one that passes the schema. *)
Theorem reference_check_empty_files (fs : FileSystem) (path : string)
  (settings : jsval) (results : list ValidationResult) :
  prop settings "files" = Some (JArray []) ->
  validateFileReferences join fs path settings results = results.
Proof.
  intros Hfiles.
  rewrite (validateFileReferences_files join fs path settings [] results Hfiles).
  apply app_nil_r.
Qed.

(** C6, as amended.  The include/extend report takes no file system and
    appends warning findings only, whatever the document.  For a document
    that passes the schema it appends one warning naming the extend target
    when [extend] is a string that is not empty, none for an [extend] that
    is absent or the empty string, and then one warning for each entry of
    [include], in the order of the sequence. *)
Theorem cross_reference_report (path : string) (settings : jsval)
  (results : list ValidationResult) :
  (forall r,
      In r (validateReferenceIntegrity join path settings results) ->
      In r results \/ ValidationResult.type r = warning)
  /\ (schema_valid invalid_type_message settings ->
      validateReferenceIntegrity join path settings results
      = results
        ++ match prop settings "extend" with
           | Some (JString (String c extend)) =>
               [extend_warning join path (String c extend)]
           | _ => []
           end
        ++ map (include_warning join path)
             (string_items (prop settings "include"))
      /\ elements (prop settings "include")
         = map JString (string_items (prop settings "include"))).
Proof.
  split.
  - intros r. rewrite validateReferenceIntegrity_appends.
    rewrite !in_app_iff. intros [Hr | [Hr | Hr]].
    + now left.
    + right. destruct (truthy _ && is_string _); [|contradiction].
      destruct Hr as [<- | []]. reflexivity.
    + right. apply in_map_iff in Hr. destruct Hr as (include & <- & _).
      reflexivity.
  - intros Hvalid.
    destruct (schema_valid_inv _ _ Hvalid)
      as (fields & -> & _ & _ & _ & _ & Hinclude & Hextend).
    rewrite validateReferenceIntegrity_appends. simpl. split.
    + f_equal. f_equal.
      destruct Hextend as [-> | [s ->]]; [reflexivity|].
      now destruct s.
    + destruct Hinclude as [-> | [l ->]]; [reflexivity|].
      now rewrite string_items_strings.
Qed.

(** C7.  The settings check appends a warning only when strict mode is
    requested and the document has been read, parsed and has passed the
    schema.  In that case it appends, before the closing info finding, the
    warnings of the three checks and nothing else: one for an [id] that
    does not match [[a-z0-9-_]+], one for a [version] that does not begin
    with digits, dot, digits, dot, digits, and one for a [description]
    that is missing (or empty).  Each check decides on its own field, adds
    at most one finding, and all three findings are warnings. *)
Theorem strict_mode_checks (fs : FileSystem) (settingsFile : string)
  (options : ValidateOptions) (results : list ValidationResult) :
  (forall r,
      In r (validateSettingsFile parseYaml invalid_type_message fs settingsFile
              [] options) ->
      ValidationResult.type r = warning ->
      strict options = Some true
      /\ exists content settings,
          readFileSync fs settingsFile = Returns content
          /\ parseYaml content = Returns settings
          /\ schema_valid invalid_type_message settings)
  /\ (forall content settings,
         readFileSync fs settingsFile = Returns content ->
         parseYaml content = Returns settings ->
         schema_valid invalid_type_message settings ->
         strict options = Some true ->
         exists id version,
           prop settings "id" = Some (JString id)
           /\ prop settings "version" = Some (JString version)
           /\ validateSettingsFile parseYaml invalid_type_message fs
                settingsFile results options
              = results
                ++ (if id_regex_test id then []
                    else [id_warning settingsFile])
                ++ (if version_regex_test version then []
                    else [version_warning settingsFile])
                ++ match prop settings "description" with
                   | Some (JString (String _ _)) => []
                   | _ => [description_warning settingsFile]
                   end
                ++ [settings_valid settingsFile])
  /\ ValidationResult.type (id_warning settingsFile) = warning
  /\ ValidationResult.type (version_warning settingsFile) = warning
  /\ ValidationResult.type (description_warning settingsFile) = warning.
Proof.
  split; [|split; [|now repeat split]].
  - intros r. unfold validateSettingsFile.
    destruct (readFileSync fs settingsFile) as [content|e].
    2:{ intros [<- | []]; discriminate. }
    destruct (parseYaml content) as [settings|e] eqn:Hparse.
    2:{ intros [<- | []]; discriminate. }
    unfold safeParse.
    destruct (zod_issues invalid_type_message StencilSettingsSchema []
                (Some settings)) as [|issue issues] eqn:Hissues.
    + destruct (strict options) as [[]|].
      * intros _ _. split; [reflexivity|]. now exists content, settings.
      * intros [<- | []]; discriminate.
      * intros [<- | []]; discriminate.
    + rewrite fold_push. simpl. intros Hr Hty. exfalso.
      assert (Herr : forall x,
                 In x (map (schema_error settingsFile) (issue :: issues)) ->
                 ValidationResult.type x = error).
      { intros x Hx. apply in_map_iff in Hx. now destruct Hx as (? & <- & _). }
      rewrite (Herr r Hr) in Hty. discriminate.
  - intros content settings Hread Hparse Hvalid Hstrict.
    destruct (schema_valid_inv _ _ Hvalid)
      as (fields & -> & (id & Hid & _) & (version & Hversion & _)
          & Hdescription & _).
    exists id, version. split; [exact Hid|]. split; [exact Hversion|].
    unfold validateSettingsFile, safeParse.
    rewrite Hread, Hparse, Hvalid, Hstrict.
    rewrite performStrictValidation_output.
    rewrite performStrictValidation_appends by reflexivity.
    unfold push. simpl. rewrite Hid, Hversion. simpl.
    rewrite <- !app_assoc.
    destruct (id_regex_test id), (version_regex_test version);
      destruct Hdescription as [-> | [[|c s] ->]]; reflexivity.
Qed.

(** C8, as amended.  When the settings document parses to a mapping that
    lacks one of [id], [name], [version], [type], the run has an error
    finding whose message names that field, and [success] is false. *)
Theorem missing_required_field (fs : FileSystem) (path : string)
  (options : ValidateOptions) (now content : string)
  (fields : list (string * jsval)) (field : string) :
  existsSync fs path = true ->
  isDirectory fs path = true ->
  existsSync fs (join path "stencil-settings.yml") = true ->
  readFileSync fs (join path "stencil-settings.yml") = Returns content ->
  parseYaml content = Returns (JObject fields) ->
  In field required_fields ->
  lookup field fields = None ->
  (exists r,
      In r (ValidationSummary.errors (run fs path options now))
      /\ ValidationResult.type r = error
      /\ names_field field r)
  /\ ValidationSummary.success (run fs path options now) = false.
Proof.
  intros Hroot Hdir Hsettings Hread Hparse Hfield Hmissing.
  set (issue := invalid_type invalid_type_message [Key field] "string" None).
  assert (Hissue : In issue (zod_issues invalid_type_message
                               StencilSettingsSchema [] (Some (JObject fields)))).
  { unfold StencilSettingsSchema. cbn [zod_issues app].
    destruct Hfield as [<- | [<- | [<- | [<- | []]]]];
      rewrite Hmissing; cbn [zod_issues];
      rewrite ?in_app_iff; simpl; tauto. }
  assert (Hin : In (schema_error (join path "stencil-settings.yml") issue)
                  (ValidationSummary.errors (run fs path options now))).
  { rewrite validateStencilDefinition_reached by assumption.
    cbv zeta. unfold createSummary, ValidationSummary.errors.
    apply filter_In. split; [|reflexivity].
    apply in_or_app. left.
    unfold validateSettingsFile, safeParse. rewrite Hread, Hparse.
    destruct (zod_issues invalid_type_message StencilSettingsSchema []
                (Some (JObject fields))) as [|i0 issues]; [contradiction|].
    rewrite fold_push. cbn [app]. apply in_map. exact Hissue. }
  split.
  - exists (schema_error (join path "stencil-settings.yml") issue).
    split; [exact Hin|]. split; [reflexivity|].
    now exists (invalid_type_message "string" None).
  - generalize Hin. unfold validateStencilDefinition.
    rewrite Hroot, Hdir. cbn [negb]. rewrite Hsettings. cbn [negb]. cbv zeta.
    unfold createSummary. simpl.
    destruct (filter (has_type error) _); [contradiction | reflexivity].
Qed.

End Guarantees.

(** ** The guarantees on the sample host *)

(** No settings document: one error, exit code 2. *)
Example run_without_settings :
  let fs := stencil_fs None [] in
  map ValidationResult.message (findings (sample_run fs default_options))
  = [ "Required file stencil-settings.yml not found" ]
  /\ sample_command fs default_options = 2.
Proof.
  cbv zeta. split; vm_compute; reflexivity.
Qed.

(** A valid document whose declared files exist: the info finding of the
    settings check and one for each file, exit code 0. *)
Example run_with_declared_files :
  let fs := stencil_fs (Some doc_declared_files) ["files/a.txt"; "files/b.txt"] in
  map ValidationResult.message (findings (sample_run fs default_options))
  = [ "Stencil settings file is valid";
      "Referenced file exists: files/a.txt";
      "Referenced file exists: files/b.txt" ]
  /\ ValidationSummary.errors (sample_run fs default_options) = []
  /\ ValidationSummary.warnings (sample_run fs default_options) = []
  /\ sample_command fs default_options = 0.
Proof.
  cbv zeta. repeat split; vm_compute; reflexivity.
Qed.

(** The same document with one declared file missing: one error, exit
    code 2. *)
Example run_with_missing_file :
  let fs := stencil_fs (Some doc_declared_files) ["files/a.txt"] in
  map ValidationResult.message
    (ValidationSummary.errors (sample_run fs default_options))
  = [ "Referenced file does not exist: files/b.txt" ]
  /\ sample_command fs default_options = 2.
Proof.
  cbv zeta. split; vm_compute; reflexivity.
Qed.

(** Strict mode on a document with a bad [id]: warnings only; exit code 1
    with [failOn] set to ['warn'], 0 with the default. *)
Example run_strict_bad_id :
  let fs := stencil_fs (Some doc_bad_id) [] in
  ValidationSummary.errors (sample_run fs strict_options) = []
  /\ In (id_warning "/stencil/stencil-settings.yml")
       (ValidationSummary.warnings (sample_run fs strict_options))
  /\ sample_command fs strict_options = 1
  /\ sample_command fs
       {| format := text; failOn := fail_error; strict := Some true;
          ignore := None |} = 0.
Proof.
  cbv zeta. repeat split; try (vm_compute; reflexivity).
  vm_compute. now left.
Qed.

(** C1: a document that fails the schema and still reaches both reference
    checks.  The settings document lacks [id], so schema validation reports
    an error; the run goes on to report the declared file as missing and
    the extend target as unverifiable. *)
Example schema_error_then_reference_checks :
  let summary := sample_run (stencil_fs (Some doc_without_id) []) default_options in
  ~ schema_valid default_invalid_type_message settings_without_id
  /\ map ValidationResult.message (ValidationSummary.errors summary)
     = [ "Schema validation failed: id - Required";
         "Referenced file does not exist: files/a.txt" ]
  /\ map ValidationResult.message (ValidationSummary.warnings summary)
     = [ "Extend reference found: base-template (cannot validate external references in Phase 1)" ]
  /\ ValidationSummary.info summary = [].
Proof.
  cbv zeta. split; [|split; [|split]].
  - unfold schema_valid. vm_compute. discriminate.
  - vm_compute. reflexivity.
  - vm_compute. reflexivity.
  - vm_compute. reflexivity.
Qed.

(** The root exists, is a directory and holds one file, there is no
    settings document, and [totalFiles] is 0. *)
Example totalFiles_zero_without_settings :
  let fs := stencil_fs None ["a.txt"] in
  existsSync fs "/stencil" = true
  /\ isDirectory fs "/stencil" = true
  /\ glob fs "/stencil" = ["a.txt"]
  /\ ValidationSummary.totalFiles (sample_run fs default_options) = 0
  /\ ValidationSummary.totalFiles (sample_run fs default_options)
     <> List.length (glob fs "/stencil").
Proof.
  cbv zeta. repeat split; vm_compute; try reflexivity. discriminate.
Qed.

(** C3, as stated, fails twice.  Without a settings document
    [totalFiles] is 0, though the root is a directory with a file in it.
    With the settings document, a template, a dotfile and a file in a
    dot-directory, four files in all, [totalFiles] is 2. *)
Example totalFiles_not_all_files :
  (let fs := stencil_fs None ["a.txt"] in
   existsSync fs "/stencil" = true
   /\ isDirectory fs "/stencil" = true
   /\ glob fs "/stencil" = ["a.txt"]
   /\ ValidationSummary.totalFiles (sample_run fs default_options) = 0)
  /\ (let fs := tree_fs doc_empty_files sample_tree in
      existsSync fs "/stencil" = true
      /\ isDirectory fs "/stencil" = true
      /\ existsSync fs "/stencil/stencil-settings.yml" = true
      /\ glob fs "/stencil" = glob_nodir sample_tree
      /\ map join_slash (file_paths sample_tree)
         = [ "stencil-settings.yml"; "files/a.txt"; ".env"; ".git/config" ]
      /\ glob_nodir sample_tree = [ "stencil-settings.yml"; "files/a.txt" ]
      /\ ValidationSummary.totalFiles (sample_run fs default_options) = 2).
Proof.
  cbv zeta. repeat split; vm_compute; reflexivity.
Qed.

Lemma totalFiles_visible_files_witness :
  ValidationSummary.totalFiles
    (sample_run (tree_fs doc_empty_files sample_tree) default_options)
  = 2.
Proof.
  apply (totalFiles_visible_files sample_join sample_parseYaml
           default_invalid_type_message
           (tree_fs doc_empty_files sample_tree) "/stencil" default_options
           "2025-01-01T00:00:00.000Z" sample_tree).
  reflexivity.
Defined.

Lemma fatal_single_error_witness :
  let fs := stencil_fs (Some doc_malformed) ["a.txt"] in
  fatal sample_join sample_parseYaml fs "/stencil"
  /\ exists r,
      ValidationSummary.errors (sample_run fs default_options) = [r]
      /\ ValidationResult.type r = error
      /\ ValidationSummary.warnings (sample_run fs default_options) = []
      /\ ValidationSummary.info (sample_run fs default_options) = []
      /\ ValidationSummary.success (sample_run fs default_options) = false
      /\ ValidationResult.details r = Some "Flow map must end with a }".
Proof.
  cbv zeta.
  assert (Hfatal : fatal sample_join sample_parseYaml
                     (stencil_fs (Some doc_malformed) ["a.txt"]) "/stencil").
  { apply parse_failure
      with (content := doc_malformed)
           (e := ErrorObject "Flow map must end with a }");
      reflexivity. }
  split; [exact Hfatal|].
  destruct (fatal_single_error sample_join sample_parseYaml
              default_invalid_type_message
              (stencil_fs (Some doc_malformed) ["a.txt"]) "/stencil"
              default_options "2025-01-01T00:00:00.000Z" Hfatal)
    as (r & Herrors & Htype & Hwarnings & Hinfo & Hsuccess & Hdetails).
  exists r. repeat split; try assumption.
  apply (Hdetails doc_malformed); reflexivity.
Defined.

Lemma reference_check_declared_files_witness :
  let fs := stencil_fs (Some doc_declared_files) ["files/a.txt"] in
  exists files,
    [JString "files/a.txt"; JString "files/b.txt"] = map JString files
    /\ validateFileReferences sample_join fs "/stencil" settings_declared_files []
       = map (reference_finding sample_join fs "/stencil") files.
Proof.
  cbv zeta.
  destruct (reference_check_declared_files sample_join
              default_invalid_type_message
              (stencil_fs (Some doc_declared_files) ["files/a.txt"]) "/stencil"
              settings_declared_files
              [JString "files/a.txt"; JString "files/b.txt"] [])
    as (files & Hentries & Hresults & _).
  - reflexivity.
  - reflexivity.
  - discriminate.
  - exists files. split; assumption.
Defined.

Lemma reference_check_empty_files_witness :
  validateFileReferences sample_join
    (stencil_fs (Some doc_empty_files) []) "/stencil" settings_empty_files []
  = [].
Proof.
  apply reference_check_empty_files. reflexivity.
Defined.

(** C6, as stated, fails: the document passes the schema and sets
    [extend], to the empty string; the run reports the two includes and
    the missing [files/] directory and has no warning for [extend]. *)
Example empty_extend_not_reported :
  let summary := sample_run (stencil_fs (Some doc_empty_extend) []) default_options in
  schema_valid default_invalid_type_message settings_empty_extend
  /\ prop settings_empty_extend "extend" = Some (JString "")
  /\ ValidationSummary.errors summary = []
  /\ map ValidationResult.message (ValidationSummary.warnings summary)
     = [ "No files/ directory found and no explicit files list provided";
         "Include reference found: common (cannot validate external references in Phase 1)";
         "Include reference found: shared (cannot validate external references in Phase 1)" ]
  /\ validateReferenceIntegrity sample_join "/stencil" settings_empty_extend []
     = [ include_warning sample_join "/stencil" "common";
         include_warning sample_join "/stencil" "shared" ]
  /\ filter (fun r => String.prefix "Extend reference found"
                        (ValidationResult.message r))
        (findings summary)
     = [].
Proof.
  cbv zeta. repeat split; vm_compute; reflexivity.
Qed.

Lemma cross_reference_report_witness :
  validateReferenceIntegrity sample_join "/stencil" settings_without_id []
  = [ extend_warning sample_join "/stencil" "base-template" ]
  /\ validateReferenceIntegrity sample_join "/stencil" settings_empty_extend []
     = [ include_warning sample_join "/stencil" "common";
         include_warning sample_join "/stencil" "shared" ].
Proof.
  split; [reflexivity|].
  apply (proj2 (cross_reference_report sample_join
                  default_invalid_type_message "/stencil"
                  settings_empty_extend [])).
  reflexivity.
Defined.

Lemma strict_mode_checks_witness :
  let fs := stencil_fs (Some doc_bad_id) [] in
  let settingsFile := "/stencil/stencil-settings.yml" in
  exists id version,
    prop settings_bad_id "id" = Some (JString id)
    /\ prop settings_bad_id "version" = Some (JString version)
    /\ validateSettingsFile sample_parseYaml default_invalid_type_message fs
         settingsFile [] strict_options
       = [] ++ (if id_regex_test id then [] else [id_warning settingsFile])
            ++ (if version_regex_test version then []
                else [version_warning settingsFile])
            ++ [description_warning settingsFile]
            ++ [settings_valid settingsFile].
Proof.
  cbv zeta.
  apply (proj1 (proj2 (strict_mode_checks sample_parseYaml
                         default_invalid_type_message
                         (stencil_fs (Some doc_bad_id) [])
                         "/stencil/stencil-settings.yml" strict_options []))
           doc_bad_id settings_bad_id); reflexivity.
Defined.

(** C8, as stated, fails: the empty document parses, to [null], and has
    none of the required fields; the one schema error of the run is on
    the empty path and names no field. *)
Example empty_document_names_no_field :
  let summary := sample_run (stencil_fs (Some doc_empty) []) default_options in
  sample_parseYaml doc_empty = Returns JNull
  /\ map ValidationResult.message (ValidationSummary.errors summary)
     = [ "Schema validation failed:  - Expected object, received null" ]
  /\ forall field r,
       In field required_fields ->
       In r (ValidationSummary.errors summary) ->
       ~ names_field field r.
Proof.
  cbv zeta. split; [reflexivity|]. split; [vm_compute; reflexivity|].
  intros field r Hfield Hr [msg Hmsg].
  vm_compute in Hr. destruct Hr as [<- | []].
  destruct Hfield as [<- | [<- | [<- | [<- | []]]]]; discriminate Hmsg.
Qed.

Lemma missing_required_field_witness :
  let summary := sample_run (stencil_fs (Some doc_without_id) []) default_options in
  (exists r,
      In r (ValidationSummary.errors summary)
      /\ ValidationResult.type r = error
      /\ names_field "id" r)
  /\ ValidationSummary.success summary = false.
Proof.
  cbv zeta.
  apply (missing_required_field sample_join sample_parseYaml
           default_invalid_type_message
           (stencil_fs (Some doc_without_id) []) "/stencil" default_options
           "2025-01-01T00:00:00.000Z" doc_without_id
           (base_fields
            ++ [("files", JArray [JString "files/a.txt"]);
                ("extend", JString "base-template")])
           "id");
    try reflexivity.
  simpl. now left.
Defined.

(** ** Further properties of the schema *)

Section SchemaShape.

Variable invalid_type_message : string -> option jsval -> string.

Lemma required_string_issues (p : list PathSegment) (msg : string)
  (v : option jsval) :
  zod_issues invalid_type_message (z_string (Some (1, msg))) p v = []
  <-> nonempty_string v = true.
Proof.
  destruct v as [[| | |s| |]|]; simpl; try (split; discriminate).
  destruct s; simpl; split; try discriminate; reflexivity.
Qed.

Lemma optional_string_issues (p : list PathSegment) (v : option jsval) :
  zod_issues invalid_type_message (z_optional (z_string None)) p v = []
  <-> optional is_str v = true.
Proof.
  destruct v as [[]|]; simpl; split; try discriminate; reflexivity.
Qed.

Lemma optional_array_issues (p : list PathSegment) (v : option jsval) :
  zod_issues invalid_type_message (z_optional (z_array (z_string None))) p v = []
  <-> optional string_array v = true.
Proof.
  destruct v as [[| | | |xs|]|]; simpl; try (split; (discriminate || reflexivity)).
  generalize 0 as i. induction xs as [|x xs IH]; intros i; simpl.
  - split; reflexivity.
  - rewrite andb_true_iff, <- (IH (S i)). split.
    + intros H. apply app_eq_nil in H. destruct H as [Hx Hr].
      split; [|exact Hr]. destruct x; try discriminate. reflexivity.
    + intros [Hx Hr]. rewrite Hr. destruct x; try discriminate. reflexivity.
Qed.

Lemma optional_record_issues (p : list PathSegment) (v : option jsval) :
  zod_issues invalid_type_message (z_optional (z_record z_any)) p v = []
  <-> optional is_mapping v = true.
Proof.
  destruct v as [[| | | | |fields]|]; simpl; try (split; (discriminate || reflexivity)).
  split; [reflexivity|]. intros _.
  induction fields as [|[k x] fields IH]; simpl; [reflexivity | exact IH].
Qed.

Lemma app_nil_iff {A : Type} (l1 l2 : list A) :
  l1 ++ l2 = [] <-> l1 = [] /\ l2 = [].
Proof.
  split; [apply app_eq_nil|]. now intros [-> ->].
Qed.

Lemma zod_object_cons (k : string) (t : ZodType)
  (shape : list (string * ZodType)) (p : list PathSegment)
  (fields : list (string * jsval)) :
  zod_issues invalid_type_message (z_object ((k, t) :: shape)) p
    (Some (JObject fields))
  = zod_issues invalid_type_message t (p ++ [Key k]) (lookup k fields)
    ++ zod_issues invalid_type_message (z_object shape) p
         (Some (JObject fields)).
Proof. reflexivity. Qed.

(** X1.  The schema accepts exactly the documents of the shape of
    [StencilSettings]; keys outside the schema play no part. *)
Theorem schema_valid_iff_well_formed (settings : jsval) :
  schema_valid invalid_type_message settings
  <-> well_formed_settings settings = true.
Proof.
  unfold schema_valid, StencilSettingsSchema.
  destruct settings; try (simpl; split; discriminate).
  rewrite !zod_object_cons. cbn [well_formed_settings].
  rewrite !app_nil_iff, !andb_true_iff.
  rewrite !required_string_issues, !optional_string_issues,
    !optional_array_issues, !optional_record_issues.
  cbn [zod_issues]. tauto.
Qed.

End SchemaShape.

Section SettingsCheck.

Variable parseYaml : string -> outcome jsval.
Variable invalid_type_message : string -> option jsval -> string.

Local Abbreviation settings_check :=
  (validateSettingsFile parseYaml invalid_type_message).

(** Every issue of the schema becomes an error finding of the settings
    check. *)
Lemma schema_issue_reported (fs : FileSystem) (settingsFile : string)
  (options : ValidateOptions) (content : string) (settings : jsval)
  (issue : ZodIssue) :
  readFileSync fs settingsFile = Returns content ->
  parseYaml content = Returns settings ->
  In issue (zod_issues invalid_type_message StencilSettingsSchema []
              (Some settings)) ->
  In (schema_error settingsFile issue)
     (settings_check fs settingsFile [] options).
Proof.
  intros Hread Hparse Hissue.
  unfold validateSettingsFile, safeParse. rewrite Hread, Hparse.
  destruct (zod_issues invalid_type_message StencilSettingsSchema []
              (Some settings)) as [|i0 issues]; [contradiction|].
  rewrite fold_push. cbn [app]. apply in_map. exact Hissue.
Qed.

(** X2.  The settings check ends in one of two ways.  Either it reports
    errors only, at least one, and the document was not read, parsed and
    accepted by the schema; or the document was, and the check reports
    warnings, none unless strict mode is on, followed by the one info
    finding that the settings file is valid.  So that info finding never
    stands beside an error. *)
Theorem settings_check_outcome (fs : FileSystem) (settingsFile : string)
  (options : ValidateOptions) :
  (settings_check fs settingsFile [] options <> []
   /\ Forall (fun r => ValidationResult.type r = error)
        (settings_check fs settingsFile [] options)
   /\ ~ (exists content settings,
            readFileSync fs settingsFile = Returns content
            /\ parseYaml content = Returns settings
            /\ schema_valid invalid_type_message settings))
  \/ (exists content settings warnings,
         readFileSync fs settingsFile = Returns content
         /\ parseYaml content = Returns settings
         /\ schema_valid invalid_type_message settings
         /\ settings_check fs settingsFile [] options
            = warnings ++ [settings_valid settingsFile]
         /\ Forall (fun r => ValidationResult.type r = warning) warnings
         /\ (strict options <> Some true -> warnings = [])).
Proof.
  unfold validateSettingsFile, safeParse, schema_valid.
  destruct (readFileSync fs settingsFile) as [content|e] eqn:Hread.
  2:{ left. split; [discriminate|]. split.
      - repeat constructor.
      - intros (c & s & H & _). discriminate. }
  destruct (parseYaml content) as [settings|e] eqn:Hparse.
  2:{ left. split; [discriminate|]. split.
      - repeat constructor.
      - intros (c & s & H & Hp & _). injection H as <-. congruence. }
  destruct (zod_issues invalid_type_message StencilSettingsSchema []
              (Some settings)) as [|issue issues] eqn:Hissues.
  - right. exists content, settings.
    destruct (strict options) as [[]|] eqn:Hstrict.
    + destruct (is_object (zod_output StencilSettingsSchema settings)) eqn:Hobj.
      * rewrite (performStrictValidation_appends _ _ [] Hobj). cbn [app].
        eexists. do 3 (split; [first [reflexivity | exact Hparse | exact Hissues]|]).
        split; [reflexivity|]. split; [|congruence].
        repeat (apply Forall_app; split);
          match goal with |- Forall _ (if ?c then _ else _) => destruct c end;
          repeat constructor.
      * unfold performStrictValidation. rewrite Hobj. cbn [negb].
        exists []. do 3 (split; [first [reflexivity | exact Hparse | exact Hissues]|]).
        split; [reflexivity|]. split; [constructor | reflexivity].
    + exists []. do 3 (split; [first [reflexivity | exact Hparse | exact Hissues]|]).
      split; [reflexivity|]. split; [constructor | reflexivity].
    + exists []. do 3 (split; [first [reflexivity | exact Hparse | exact Hissues]|]).
      split; [reflexivity|]. split; [constructor | reflexivity].
  - left. rewrite fold_push. cbn [app]. split; [discriminate|]. split.
    + apply Forall_forall. intros r Hr. apply in_map_iff in Hr.
      now destruct Hr as (i & <- & _).
    + intros (c & s & H & Hp & Hv). injection H as <-.
      rewrite Hparse in Hp. injection Hp as <-. congruence.
Qed.

Lemma required_field_issue (fields : list (string * jsval)) (field : string) :
  In field required_fields ->
  nonempty_string (lookup field fields) = false ->
  exists issue,
    In issue (zod_issues invalid_type_message StencilSettingsSchema []
                (Some (JObject fields)))
    /\ ZodIssue.path issue = [Key field]
    /\ (lookup field fields = Some (JString "") ->
        In (field, z_string (Some (1, ZodIssue.message issue)))
           (shape_of StencilSettingsSchema)).
Proof.
  intros Hfield Hbad. unfold StencilSettingsSchema.
  rewrite !zod_object_cons. cbn [app shape_of].
  destruct Hfield as [<- | [<- | [<- | [<- | []]]]];
    match goal with
    | |- context [zod_issues _ (z_string (Some (1, ?m))) [Key ?k] (lookup ?k fields)] =>
        destruct (lookup k fields) as [[| | |[|c s]| |]|] eqn:Hlookup;
          try discriminate Hbad;
          eexists; (split; [rewrite !in_app_iff; cbn [zod_issues];
                            simpl; tauto|]);
          (split; [reflexivity|]); intros Hempty; try discriminate Hempty;
          simpl; tauto
    end.
Qed.

(** X3.  A required field that is missing, is not a string or is the empty
    string gives an error finding on the settings file whose message names
    the field; for the empty string the message ends with the text the
    schema gives for that field. *)
Theorem bad_required_field (fs : FileSystem) (settingsFile : string)
  (options : ValidateOptions) (content : string)
  (fields : list (string * jsval)) (field : string) :
  readFileSync fs settingsFile = Returns content ->
  parseYaml content = Returns (JObject fields) ->
  In field required_fields ->
  nonempty_string (lookup field fields) = false ->
  exists r msg,
    In r (settings_check fs settingsFile [] options)
    /\ ValidationResult.type r = error
    /\ ValidationResult.path r = settingsFile
    /\ ValidationResult.message r
       = ("Schema validation failed: " ++ field ++ " - " ++ msg)%string
    /\ (lookup field fields = Some (JString "") ->
        In (field, z_string (Some (1, msg))) (shape_of StencilSettingsSchema)).
Proof.
  intros Hread Hparse Hfield Hbad.
  destruct (required_field_issue fields field Hfield Hbad)
    as (issue & Hissue & Hpath & Hmsg).
  exists (schema_error settingsFile issue), (ZodIssue.message issue).
  split; [exact (schema_issue_reported _ _ options _ _ _ Hread Hparse Hissue)|].
  split; [reflexivity|]. split; [reflexivity|].
  split; [|exact Hmsg].
  unfold schema_error. cbn [ValidationResult.message]. now rewrite Hpath.
Qed.

Lemma array_entry_issue (p : list PathSegment) (xs : list jsval) (i : nat)
  (x : jsval) :
  nth_error xs i = Some x ->
  is_str x = false ->
  In (invalid_type invalid_type_message (p ++ [Index i]) "string" (Some x))
     (zod_issues invalid_type_message (z_optional (z_array (z_string None))) p
        (Some (JArray xs))).
Proof.
  cbn [zod_issues]. change i with (0 + i) at 2. generalize 0 as k.
  revert i. induction xs as [|y xs IH]; intros i k Hnth Hx.
  - destruct i; discriminate.
  - apply in_or_app. destruct i as [|i].
    + left. injection Hnth as ->. rewrite Nat.add_0_r.
      destruct x; try discriminate Hx; now left.
    + right. rewrite <- Nat.add_succ_comm. now apply IH.
Qed.

(** X4.  An entry of [files] or [include] that is not a string gives an
    error finding whose message names the sequence and the index of the
    entry, as in [files.2]. *)
Theorem bad_sequence_entry (fs : FileSystem) (settingsFile : string)
  (options : ValidateOptions) (content : string)
  (fields : list (string * jsval)) (key : string) (xs : list jsval)
  (i : nat) (x : jsval) :
  readFileSync fs settingsFile = Returns content ->
  parseYaml content = Returns (JObject fields) ->
  key = "files" \/ key = "include" ->
  lookup key fields = Some (JArray xs) ->
  nth_error xs i = Some x ->
  is_str x = false ->
  exists r,
    In r (settings_check fs settingsFile [] options)
    /\ ValidationResult.type r = error
    /\ ValidationResult.message r
       = ("Schema validation failed: "
          ++ (key ++ "." ++ NilEmpty.string_of_uint (Nat.to_uint i))
          ++ " - " ++ invalid_type_message "string" (Some x))%string.
Proof.
  intros Hread Hparse Hkey Hlookup Hnth Hx.
  set (issue := invalid_type invalid_type_message [Key key; Index i]
                  "string" (Some x)).
  assert (Hissue : In issue (zod_issues invalid_type_message
                               StencilSettingsSchema [] (Some (JObject fields)))).
  { unfold StencilSettingsSchema. rewrite !zod_object_cons.
    rewrite !in_app_iff.
    pose proof (array_entry_issue [Key key] xs i x Hnth Hx) as H.
    destruct Hkey as [-> | ->]; rewrite <- Hlookup in H; cbn [app]; tauto. }
  exists (schema_error settingsFile issue).
  split; [exact (schema_issue_reported _ _ options _ _ _ Hread Hparse Hissue)|].
  split; reflexivity.
Qed.

End SettingsCheck.

(** ** Further properties of the checks *)

Section MoreChecks.

Variable join : string -> string -> string.
Variable parseYaml : string -> outcome jsval.
Variable invalid_type_message : string -> option jsval -> string.

(** X5.  The reference check away from a declared list.  A document that
    is no object gets no finding.  When [files] is absent or otherwise
    falsy, the check appends exactly one finding, on the [files]
    directory under the root: info when it exists and is a directory,
    warning when not, never an error.  When [files] is truthy and is not
    a sequence, the check appends nothing. *)
Theorem reference_check_without_list (fs : FileSystem) (path : string)
  (settings : jsval) (results : list ValidationResult) :
  (is_object settings = false ->
   validateFileReferences join fs path settings results = results)
  /\ (is_object settings = true ->
      truthy (prop settings "files") = false ->
      validateFileReferences join fs path settings results
      = results
        ++ [if existsSync fs (join path "files")
               && isDirectory fs (join path "files")
            then {| ValidationResult.path := join path "files";
                    ValidationResult.type := info;
                    ValidationResult.message := "Default files/ directory found";
                    ValidationResult.details := None |}
            else {| ValidationResult.path := join path "files";
                    ValidationResult.type := warning;
                    ValidationResult.message :=
                      "No files/ directory found and no explicit files list provided";
                    ValidationResult.details := None |}])
  /\ (truthy (prop settings "files") = true ->
      isArray (prop settings "files") = false ->
      validateFileReferences join fs path settings results = results).
Proof.
  unfold validateFileReferences. split; [|split].
  - now intros ->.
  - intros -> Hfalsy. rewrite Hfalsy. unfold push. simpl.
    now destruct (existsSync fs (join path "files")
                  && isDirectory fs (join path "files")).
  - intros Htruthy Harray. rewrite Htruthy, Harray. simpl.
    now destruct (is_object settings).
Qed.

Lemma partition_by_type (results : list ValidationResult) :
  Permutation results
    (filter (has_type error) results
     ++ filter (has_type warning) results
     ++ filter (has_type info) results).
Proof.
  induction results as [|r results IH]; cbn [filter]; [constructor|].
  change (has_type error r) with (Severity_eqb (ValidationResult.type r) error).
  change (has_type warning r)
    with (Severity_eqb (ValidationResult.type r) warning).
  change (has_type info r) with (Severity_eqb (ValidationResult.type r) info).
  destruct (ValidationResult.type r); cbn [Severity_eqb app].
  - apply perm_skip. exact IH.
  - apply Permutation_cons_app. exact IH.
  - rewrite app_assoc. apply Permutation_cons_app.
    rewrite <- app_assoc. exact IH.
Qed.

Lemma filter_has_type (s : Severity) (results : list ValidationResult) :
  Forall (fun r => ValidationResult.type r = s) (filter (has_type s) results).
Proof.
  apply Forall_forall. intros r Hr. apply filter_In in Hr.
  destruct Hr as [_ Hr]. unfold has_type in Hr.
  destruct (ValidationResult.type r), s; (reflexivity || discriminate).
Qed.

(** X6.  The summary loses and invents no finding: its errors, warnings
    and info are the findings of the run, each in the list of its
    severity, and [success] holds exactly when no finding is an error. *)
Theorem summary_partitions_findings (path : string)
  (results : list ValidationResult) (totalFiles : nat) (now : string) :
  Permutation results (findings (createSummary path results totalFiles now))
  /\ Forall (fun r => ValidationResult.type r = error)
       (ValidationSummary.errors (createSummary path results totalFiles now))
  /\ Forall (fun r => ValidationResult.type r = warning)
       (ValidationSummary.warnings (createSummary path results totalFiles now))
  /\ Forall (fun r => ValidationResult.type r = info)
       (ValidationSummary.info (createSummary path results totalFiles now))
  /\ (ValidationSummary.success (createSummary path results totalFiles now) = true
      <-> forall r, In r results -> ValidationResult.type r <> error).
Proof.
  unfold findings. simpl.
  split; [apply partition_by_type|].
  do 3 (split; [apply filter_has_type|]).
  split.
  - intros Hsuccess r Hr Hty.
    assert (Hin : In r (filter (has_type error) results)).
    { apply filter_In. split; [exact Hr|]. unfold has_type. now rewrite Hty. }
    destruct (filter (has_type error) results); [contradiction | discriminate].
  - intros Hnone.
    destruct (filter (has_type error) results) as [|r errors] eqn:Herrors;
      [reflexivity|].
    assert (Hin : In r (filter (has_type error) results))
      by (rewrite Herrors; now left).
    apply filter_In in Hin. destruct Hin as [Hr Hty]. exfalso.
    apply (Hnone r Hr). unfold has_type in Hty.
    now destruct (ValidationResult.type r).
Qed.

(** X7.  The exit code is 2 exactly when [success] is false; it is never
    above 2; and it is 1 only when [failOn] is ['warn'] and some finding
    is a warning. *)
Theorem exit_code_and_success (path : string)
  (results : list ValidationResult) (totalFiles : nat) (now failOn : string) :
  (determineExitCode (createSummary path results totalFiles now) failOn = 2
   <-> ValidationSummary.success (createSummary path results totalFiles now)
       = false)
  /\ determineExitCode (createSummary path results totalFiles now) failOn <= 2
  /\ (determineExitCode (createSummary path results totalFiles now) failOn = 1 ->
      failOn = "warn"
      /\ exists r, In r results /\ ValidationResult.type r = warning).
Proof.
  unfold determineExitCode. simpl.
  destruct (filter (has_type error) results) as [|e errors]; simpl.
  - destruct (String.eqb_spec failOn "warn") as [-> | Hne]; simpl.
    + destruct (filter (has_type warning) results) as [|w warnings] eqn:Hw; simpl.
      * repeat split; try discriminate; lia.
      * repeat split; try discriminate; try lia.
        exists w.
        assert (Hin : In w (filter (has_type warning) results))
          by (rewrite Hw; now left).
        apply filter_In in Hin. destruct Hin as [Hr Hty].
        split; [exact Hr|]. unfold has_type in Hty.
        now destruct (ValidationResult.type w).
    + repeat split; try discriminate; lia.
  - repeat split; try discriminate; lia.
Qed.

(** X13.  No check touches a finding that is already collected: each one
    leaves the array it was given as a prefix of the array it returns,
    and what it adds does not depend on what was there. *)
Theorem checks_only_append :
  (forall settingsFile settings,
      exists new, forall results,
        performStrictValidation settingsFile settings results = results ++ new)
  /\ (forall fs settingsFile options,
         exists new, forall results,
           validateSettingsFile parseYaml invalid_type_message fs settingsFile
             results options = results ++ new)
  /\ (forall fs path settings,
         exists new, forall results,
           validateFileReferences join fs path settings results
           = results ++ new)
  /\ (forall path settings,
         exists new, forall results,
           validateReferenceIntegrity join path settings results
           = results ++ new).
Proof.
  split; [|split; [|split]].
  - intros settingsFile settings.
    destruct (is_object settings) eqn:Hobj.
    + eexists. intros results.
      now rewrite (performStrictValidation_appends _ _ results Hobj).
    + exists []. intros results. unfold performStrictValidation.
      rewrite Hobj. simpl. now rewrite app_nil_r.
  - intros fs settingsFile options. eexists. intros results.
    apply validateSettingsFile_appends.
  - intros fs path settings. eexists. intros results.
    apply validateFileReferences_appends.
  - intros path settings. eexists. intros results.
    apply validateReferenceIntegrity_frame.
Qed.

(** X11.  In strict mode the version warning is given exactly for a
    version that does not begin with digits, a dot, digits, a dot and
    digits; what follows that prefix is not looked at. *)
Theorem strict_version_warning (settingsFile : string) (settings : jsval)
  (version : string) :
  prop settings "version" = Some (JString version) ->
  (In (version_warning settingsFile)
      (performStrictValidation settingsFile settings [])
   <-> ~ semver_prefix version).
Proof.
  intros Hversion.
  assert (Hobj : is_object settings = true)
    by (destruct settings; (discriminate || reflexivity)).
  rewrite (performStrictValidation_appends _ _ [] Hobj), Hversion.
  cbn [app is_string as_string andb].
  unfold semver_prefix. rewrite <- version_regex_test_spec.
  rewrite !in_app_iff.
  destruct (version_regex_test version); cbn [negb]; split.
  - intros [H | [H | H]].
    + destruct (is_string _ && _); [|contradiction].
      destruct H as [H | []]. discriminate H.
    + contradiction.
    + destruct (negb _); [|contradiction].
      destruct H as [H | []]. discriminate H.
  - intros H. now elim H.
  - intros _. discriminate.
  - intros _. right. left. now left.
Qed.

End MoreChecks.

(** ** Further properties of a run *)

Section MoreRuns.

Variable join : string -> string -> string.
Variable parseYaml : string -> outcome jsval.
Variable invalid_type_message : string -> option jsval -> string.

Local Abbreviation run :=
  (validateStencilDefinition join parseYaml invalid_type_message).
Local Abbreviation settings_check :=
  (validateSettingsFile parseYaml invalid_type_message).

Lemma filter_other_type (s s' : Severity) (results : list ValidationResult) :
  s <> s' ->
  Forall (fun r => ValidationResult.type r = s') results ->
  filter (has_type s) results = [].
Proof.
  intros Hne Hall. induction Hall as [|r results Hr _ IH]; [reflexivity|].
  simpl. unfold has_type at 1. rewrite Hr.
  destruct s, s'; simpl; try exact IH; now elim Hne.
Qed.

Lemma strict_findings_are_warnings (settingsFile : string) (settings : jsval) :
  Forall (fun r => ValidationResult.type r = warning)
    (performStrictValidation settingsFile settings []).
Proof.
  destruct (is_object settings) eqn:Hobj.
  - rewrite (performStrictValidation_appends _ _ [] Hobj). cbn [app].
    repeat (apply Forall_app; split);
      match goal with |- Forall _ (if ?c then _ else _) => destruct c end;
      repeat constructor.
  - unfold performStrictValidation. rewrite Hobj. constructor.
Qed.

(** The errors and the info findings of the settings check are the same
    under any two settings of the options. *)
Lemma settings_check_options (fs : FileSystem) (settingsFile : string)
  (o1 o2 : ValidateOptions) (s : Severity) :
  s <> warning ->
  filter (has_type s) (settings_check fs settingsFile [] o1)
  = filter (has_type s) (settings_check fs settingsFile [] o2).
Proof.
  intros Hs. unfold validateSettingsFile.
  destruct (readFileSync fs settingsFile) as [content|e]; [|reflexivity].
  destruct (parseYaml content) as [settings|e]; [|reflexivity].
  destruct (safeParse invalid_type_message StencilSettingsSchema settings)
    as [data|issues]; [|reflexivity].
  unfold push.
  assert (Hstrict : filter (has_type s)
                      (performStrictValidation settingsFile data []) = []).
  { apply (filter_other_type s warning); [exact Hs|].
    apply strict_findings_are_warnings. }
  destruct (strict o1) as [[]|], (strict o2) as [[]|];
    rewrite ?filter_app, ?Hstrict; reflexivity.
Qed.

Lemma reference_errors (fs : FileSystem) (path : string)
  (files : list string) :
  filter (has_type error) (map (reference_finding join fs path) files)
  = map (fun file => reference_missing (join path file) file)
      (filter (fun file => negb (existsSync fs (join path file))) files).
Proof.
  induction files as [|file files IH]; simpl; [reflexivity|].
  destruct (existsSync fs (join path file)) eqn:Hexists.
  - replace (reference_finding join fs path file)
      with (reference_exists (join path file) file)
      by (unfold reference_finding; now rewrite Hexists).
    simpl. exact IH.
  - replace (reference_finding join fs path file)
      with (reference_missing (join path file) file)
      by (unfold reference_finding; now rewrite Hexists).
    simpl. now rewrite IH.
Qed.

Lemma reference_integrity_no_error (path : string) (settings : jsval) :
  filter (has_type error) (validateReferenceIntegrity join path settings []) = [].
Proof.
  rewrite validateReferenceIntegrity_appends. cbn [app].
  rewrite filter_app.
  destruct (truthy _ && is_string _); simpl;
    induction (string_items (prop settings "include")); simpl; auto.
Qed.

Lemma convention_check_no_error (fs : FileSystem) (path : string)
  (fields : list (string * jsval)) :
  lookup "files" fields = None ->
  filter (has_type error)
    (validateFileReferences join fs path (JObject fields) []) = [].
Proof.
  intros Hnone. unfold validateFileReferences. simpl. rewrite Hnone. simpl.
  now destruct (existsSync fs (join path "files")
                && isDirectory fs (join path "files")).
Qed.

(** X8.  On a document that passes the schema, the errors of the run are
    the declared files that are missing, one error for each in the order
    of the declaration, and nothing else; so the run succeeds exactly when
    every declared file exists (always, when none is declared). *)
Theorem valid_document_errors (fs : FileSystem) (path : string)
  (options : ValidateOptions) (now content : string) (settings : jsval) :
  existsSync fs path = true ->
  isDirectory fs path = true ->
  existsSync fs (join path "stencil-settings.yml") = true ->
  readFileSync fs (join path "stencil-settings.yml") = Returns content ->
  parseYaml content = Returns settings ->
  schema_valid invalid_type_message settings ->
  ValidationSummary.errors (run fs path options now)
  = map (fun file => reference_missing (join path file) file)
      (filter (fun file => negb (existsSync fs (join path file)))
         (string_items (prop settings "files")))
  /\ (ValidationSummary.success (run fs path options now) = true
      <-> forall file,
          In file (string_items (prop settings "files")) ->
          existsSync fs (join path file) = true).
Proof.
  intros Hroot Hdir Hsettings Hread Hparse Hvalid.
  assert (Herrors :
            ValidationSummary.errors (run fs path options now)
            = map (fun file => reference_missing (join path file) file)
                (filter (fun file => negb (existsSync fs (join path file)))
                   (string_items (prop settings "files")))).
  { rewrite validateStencilDefinition_reached by assumption. cbv zeta.
    unfold createSummary, ValidationSummary.errors.
    assert (Hload : loadStencilSettings parseYaml fs
                      (join path "stencil-settings.yml") = settings)
      by (unfold loadStencilSettings; now rewrite Hread, Hparse).
    rewrite Hload.
    destruct (schema_valid_inv _ _ Hvalid)
      as (fields & -> & _ & _ & _ & Hfiles & _).
    cbn [truthy]. rewrite !filter_app, reference_integrity_no_error, app_nil_r.
    assert (Hcheck : filter (has_type error)
                       (settings_check fs (join path "stencil-settings.yml")
                          [] options) = []).
    { unfold validateSettingsFile, safeParse. rewrite Hread, Hparse, Hvalid.
      unfold push. rewrite filter_app. cbn [filter has_type Severity_eqb
        ValidationResult.type settings_valid app].
      rewrite app_nil_r.
      destruct (strict options) as [[]|]; try reflexivity.
      apply (filter_other_type error warning); [discriminate|].
      apply strict_findings_are_warnings. }
    rewrite Hcheck. cbn [app prop].
    destruct Hfiles as [Hnone | [files Hsome]].
    - rewrite (convention_check_no_error fs path fields Hnone).
      now rewrite Hnone.
    - rewrite Hsome, string_items_strings.
      rewrite (validateFileReferences_files join fs path (JObject fields) files []
                 Hsome).
      cbn [app]. apply reference_errors. }
  split; [exact Herrors|].
  assert (Hsuccess :
            ValidationSummary.success (run fs path options now)
            = Nat.eqb (List.length
                         (ValidationSummary.errors (run fs path options now))) 0).
  { unfold validateStencilDefinition.
    rewrite Hroot, Hdir. cbn [negb]. rewrite Hsettings. reflexivity. }
  rewrite Hsuccess, Herrors. clear.
  induction (string_items (prop settings "files")) as [|file files IH]; simpl.
  - split; [contradiction | reflexivity].
  - destruct (existsSync fs (join path file)) eqn:Hexists; simpl.
    + rewrite IH. split.
      * intros H f [<- | Hf]; [exact Hexists | now apply H].
      * intros H f Hf. apply H. now right.
    + split; [discriminate|]. intros H.
      rewrite (H file (or_introl eq_refl)) in Hexists. discriminate.
Qed.

(** X9.  The options change nothing but the warnings: whatever the two
    settings of [format], [failOn], [strict] and [ignore], the two runs
    have the same errors and info findings, the same [success], and the
    same [totalFiles]. *)
Theorem options_change_only_warnings (fs : FileSystem) (path : string)
  (o1 o2 : ValidateOptions) (now : string) :
  ValidationSummary.errors (run fs path o1 now)
  = ValidationSummary.errors (run fs path o2 now)
  /\ ValidationSummary.info (run fs path o1 now)
     = ValidationSummary.info (run fs path o2 now)
  /\ ValidationSummary.success (run fs path o1 now)
     = ValidationSummary.success (run fs path o2 now)
  /\ ValidationSummary.totalFiles (run fs path o1 now)
     = ValidationSummary.totalFiles (run fs path o2 now).
Proof.
  destruct (existsSync fs path) eqn:Hroot.
  2:{ unfold validateStencilDefinition. rewrite Hroot. now repeat split. }
  destruct (isDirectory fs path) eqn:Hdir.
  2:{ unfold validateStencilDefinition. rewrite Hroot, Hdir. now repeat split. }
  destruct (existsSync fs (join path "stencil-settings.yml")) eqn:Hsettings.
  2:{ unfold validateStencilDefinition. rewrite Hroot, Hdir. cbn [negb].
      rewrite Hsettings. now repeat split. }
  rewrite !validateStencilDefinition_reached by assumption. cbv zeta.
  unfold createSummary. cbn [ValidationSummary.errors ValidationSummary.info
    ValidationSummary.success ValidationSummary.totalFiles].
  rewrite !filter_app.
  rewrite (settings_check_options fs _ o1 o2 error) by discriminate.
  rewrite (settings_check_options fs _ o1 o2 info) by discriminate.
  now repeat split.
Qed.

(** X10.  Of the options only [strict] reaches the engine: two runs whose
    options agree on [strict] give the same summary, whatever their
    [format], [failOn] and [ignore]; the [ignore] patterns filter
    nothing. *)
Theorem only_strict_reaches_engine (fs : FileSystem) (path : string)
  (o1 o2 : ValidateOptions) (now : string) :
  strict o1 = strict o2 ->
  run fs path o1 now = run fs path o2 now.
Proof.
  intros Hstrict. unfold validateStencilDefinition, validateSettingsFile.
  now rewrite Hstrict.
Qed.

(** X14.  A settings document that exists and cannot be read gives a run
    with exactly one finding, the error that reading failed, with the
    message of the exception as its details; the run fails, and
    [totalFiles] is still what the walk of the directory [dir] at the
    root returns: the number of its regular files whose path has no
    segment that begins with a dot. *)
Theorem unreadable_settings_run (fs : FileSystem) (path : string)
  (options : ValidateOptions) (now : string) (e : thrown) (dir : Tree) :
  existsSync fs path = true ->
  isDirectory fs path = true ->
  existsSync fs (join path "stencil-settings.yml") = true ->
  readFileSync fs (join path "stencil-settings.yml") = Throws e ->
  glob fs path = glob_nodir dir ->
  findings (run fs path options now)
  = [ {| ValidationResult.path := join path "stencil-settings.yml";
         ValidationResult.type := error;
         ValidationResult.message := "Failed to read stencil settings file";
         ValidationResult.details :=
           Some (match e with
                 | ErrorObject msg => msg
                 | NotAnError => "Unknown file reading error"
                 end) |} ]
  /\ ValidationSummary.success (run fs path options now) = false
  /\ ValidationSummary.totalFiles (run fs path options now)
     = List.length (filter visible (file_paths dir)).
Proof.
  intros Hroot Hdir Hsettings Hread Hwalk.
  rewrite validateStencilDefinition_reached by assumption.
  unfold validateSettingsFile, loadStencilSettings, findings.
  rewrite Hread, Hwalk, glob_nodir_length. simpl. now destruct e.
Qed.

(** X15.  A settings document that parses to something that is no mapping
    gives one error, the schema error on the empty path.  A scalar or
    [null] gives nothing else.  A sequence also gets the one finding on
    the [files] directory, as if it were a mapping without [files]. *)
Theorem non_mapping_document_run (fs : FileSystem) (path : string)
  (options : ValidateOptions) (now content : string) (v : jsval) :
  existsSync fs path = true ->
  isDirectory fs path = true ->
  existsSync fs (join path "stencil-settings.yml") = true ->
  readFileSync fs (join path "stencil-settings.yml") = Returns content ->
  parseYaml content = Returns v ->
  is_mapping v = false ->
  ValidationSummary.errors (run fs path options now)
  = [ schema_error (join path "stencil-settings.yml")
        (invalid_type invalid_type_message [] "object" (Some v)) ]
  /\ (is_object v = false ->
      ValidationSummary.warnings (run fs path options now) = []
      /\ ValidationSummary.info (run fs path options now) = [])
  /\ (is_object v = true ->
      ValidationSummary.warnings (run fs path options now)
      ++ ValidationSummary.info (run fs path options now)
      = [ if existsSync fs (join path "files")
             && isDirectory fs (join path "files")
          then files_dir_found (join path "files")
          else files_dir_missing (join path "files") ]).
Proof.
  intros Hroot Hdir Hsettings Hread Hparse Hmapping.
  rewrite validateStencilDefinition_reached by assumption. cbv zeta.
  assert (Hload : loadStencilSettings parseYaml fs
                    (join path "stencil-settings.yml") = v)
    by (unfold loadStencilSettings; now rewrite Hread, Hparse).
  rewrite Hload.
  unfold validateSettingsFile, safeParse. rewrite Hread, Hparse.
  destruct v as [|b|x|s|xs|fields]; try discriminate Hmapping;
    cbn [zod_issues StencilSettingsSchema fold_left push app];
    unfold validateFileReferences, validateReferenceIntegrity;
    cbn [is_object negb truthy prop isArray andb];
    (split; [|split]); try discriminate;
    try (intros _; split);
    repeat match goal with
      | |- context [if ?c then _ else _] => destruct c
      end; reflexivity.
Qed.

End MoreRuns.

(** ** The id check, by its alphabet *)

Lemma id_char_alphabet (c : ascii) :
  id_char c = existsb (Ascii.eqb c) (list_ascii_of_string id_alphabet).
Proof.
  destruct c as [[] [] [] [] [] [] [] []]; vm_compute; reflexivity.
Qed.

Lemma all_chars_false (p : ascii -> bool) (s : string) :
  all_chars p s = false
  <-> exists c, In c (list_ascii_of_string s) /\ p c = false.
Proof.
  induction s as [|c s IH]; simpl.
  - split; [discriminate | intros (c & [] & _)].
  - rewrite andb_false_iff, IH. split.
    + intros [Hc | (x & Hx & Hp)].
      * exists c. split; [now left | exact Hc].
      * exists x. split; [now right | exact Hp].
    + intros (x & [<- | Hx] & Hp); [now left|].
      right. now exists x.
Qed.

(** X12.  In strict mode the id warning is given exactly for an id that
    is empty or has a character that is none of the lowercase letters
    [a] to [z], the digits, the hyphen and the underscore. *)
Theorem strict_id_warning (settingsFile : string) (settings : jsval)
  (id : string) :
  prop settings "id" = Some (JString id) ->
  (In (id_warning settingsFile)
      (performStrictValidation settingsFile settings [])
   <-> id = ""
       \/ exists c,
           In c (list_ascii_of_string id)
           /\ ~ In c (list_ascii_of_string id_alphabet)).
Proof.
  intros Hid.
  assert (Hobj : is_object settings = true)
    by (destruct settings; (discriminate || reflexivity)).
  rewrite (performStrictValidation_appends _ _ [] Hobj), Hid.
  cbn [app is_string as_string andb].
  assert (Htest : id_regex_test id = false
                  <-> id = ""
                      \/ exists c,
                          In c (list_ascii_of_string id)
                          /\ ~ In c (list_ascii_of_string id_alphabet)).
  { destruct id as [|c0 id]; [split; [now left | reflexivity]|].
    cbn [id_regex_test]. rewrite all_chars_false. split.
    - intros (c & Hc & Hp). right. exists c. split; [exact Hc|].
      intros Hin. rewrite id_char_alphabet in Hp.
      assert (Htrue : existsb (Ascii.eqb c) (list_ascii_of_string id_alphabet)
                      = true).
      { apply existsb_exists. exists c. split; [exact Hin|].
        apply Ascii.eqb_refl. }
      congruence.
    - intros [Hempty | (c & Hc & Hout)]; [discriminate|].
      exists c. split; [exact Hc|]. rewrite id_char_alphabet.
      destruct (existsb (Ascii.eqb c) (list_ascii_of_string id_alphabet))
        eqn:Hex; [|reflexivity].
      apply existsb_exists in Hex. destruct Hex as (x & Hx & Heq).
      apply Ascii.eqb_eq in Heq. subst x. now elim Hout. }
  rewrite <- Htest. rewrite !in_app_iff.
  destruct (id_regex_test id); cbn [negb]; split.
  - intros [H | [H | H]].
    + contradiction.
    + destruct (is_string _ && _); [|contradiction].
      destruct H as [H | []]. discriminate H.
    + destruct (negb _); [|contradiction].
      destruct H as [H | []]. discriminate H.
  - discriminate.
  - reflexivity.
  - intros _. left. now left.
Qed.

(** ** The init command *)

Section InitProperties.

Variable resolve : string -> string -> string.
Variable cwd : outcome string.
Variable write_result : Disk -> string -> string -> WriteResult.

Local Abbreviation init := (initCommand resolve cwd write_result).

Lemma init_existing (disk : Disk) (options : InitOptions) (now dir : string) :
  cwd = Returns dir ->
  disk_exists disk (resolve dir ".promarker.json") = true ->
  force options <> Some true ->
  init disk options now
  = {| disk_after := disk; exit_code := None; uncaught := None |}.
Proof.
  intros Hcwd Hexists Hforce. unfold initCommand. rewrite Hcwd, Hexists.
  destruct (force options) as [[]|]; try reflexivity. now elim Hforce.
Qed.

(** X16.  Without [force], [initCommand] leaves a directory that already
    has [.promarker.json] as it is: nothing is written, whatever the path
    holds, and the command returns. *)
Theorem init_keeps_existing_config (disk : Disk) (options : InitOptions)
  (now dir : string) :
  cwd = Returns dir ->
  disk_exists disk (resolve dir ".promarker.json") = true ->
  force options <> Some true ->
  init disk options now
  = {| disk_after := disk; exit_code := None; uncaught := None |}.
Proof.
  intros Hcwd Hexists Hforce. unfold initCommand. rewrite Hcwd, Hexists.
  destruct (force options) as [[]|]; try reflexivity. now elim Hforce.
Qed.

(** X17.  [initCommand] writes to no path but [.promarker.json] in the
    current directory.  When [process.cwd()] throws, the command ends with
    that exception and the disk is as it was.  Otherwise it ends with a
    return or with exit code 1.  After a return the path holds what it
    held before or the default configuration.  Exit code 1 comes only
    when the write threw; the path then holds what it held before, when
    the file could not be opened, or the part of the write that got into
    the file after the opening had emptied it. *)
Theorem init_writes_only_config (disk : Disk) (options : InitOptions)
  (now : string) :
  (forall e,
      cwd = Throws e ->
      init disk options now
      = {| disk_after := disk; exit_code := None; uncaught := Some e |})
  /\ (forall dir,
         cwd = Returns dir ->
         (forall p, p <> resolve dir ".promarker.json" ->
                    disk_after (init disk options now) p = disk p)
         /\ uncaught (init disk options now) = None
         /\ (exit_code (init disk options now) = None
             /\ (disk_after (init disk options now) (resolve dir ".promarker.json")
                 = disk (resolve dir ".promarker.json")
                 \/ disk_after (init disk options now)
                      (resolve dir ".promarker.json")
                    = Some (File (defaultConfig_json now)))
             \/ exit_code (init disk options now) = Some 1
                /\ exists e reached,
                    write_result disk (resolve dir ".promarker.json")
                      (defaultConfig_json now)
                    = WriteFailed e reached
                    /\ disk_after (init disk options now)
                         (resolve dir ".promarker.json")
                       = match reached with
                         | None => disk (resolve dir ".promarker.json")
                         | Some part => Some (File part)
                         end)).
Proof.
  split.
  - intros e Hcwd. unfold initCommand. now rewrite Hcwd.
  - intros dir Hcwd. unfold initCommand, writeFileSync. rewrite Hcwd.
    destruct (disk_exists disk (resolve dir ".promarker.json") && _).
    + simpl. split; [reflexivity|]. split; [reflexivity|].
      left. split; [reflexivity | now left].
    + destruct (write_result disk (resolve dir ".promarker.json")
                  (defaultConfig_json now)) as [|e [part|]] eqn:Hwrite;
        cbn [disk_after exit_code uncaught].
      * split; [|split; [reflexivity|]].
        -- intros p Hp. unfold disk_write.
           apply String.eqb_neq in Hp. now rewrite Hp.
        -- left. split; [reflexivity|]. right.
           unfold disk_write. now rewrite String.eqb_refl.
      * split; [|split; [reflexivity|]].
        -- intros p Hp. unfold disk_write.
           apply String.eqb_neq in Hp. now rewrite Hp.
        -- right. split; [reflexivity|]. exists e, (Some part).
           split; [reflexivity|].
           unfold disk_write. now rewrite String.eqb_refl.
      * split; [reflexivity|]. split; [reflexivity|].
        right. split; [reflexivity|]. exists e, None. now split.
Qed.

(** X18.  After an [initCommand] that returned, the configuration file is
    there, and a second [initCommand] without [force] changes nothing. *)
Theorem init_twice (disk : Disk) (options again : InitOptions)
  (now later dir : string) :
  cwd = Returns dir ->
  exit_code (init disk options now) = None ->
  force again <> Some true ->
  disk_exists (disk_after (init disk options now))
    (resolve dir ".promarker.json") = true
  /\ init (disk_after (init disk options now)) again later
     = {| disk_after := disk_after (init disk options now);
          exit_code := None; uncaught := None |}.
Proof.
  intros Hcwd Hexit Hforce.
  assert (Hexists :
            disk_exists (disk_after (init disk options now))
              (resolve dir ".promarker.json") = true).
  { revert Hexit. unfold initCommand, writeFileSync. rewrite Hcwd.
    destruct (disk_exists disk (resolve dir ".promarker.json")) eqn:Hthere;
      cbn [andb].
    - destruct (negb _); cbn [disk_after]; [intros _; exact Hthere|].
      destruct (write_result disk _ _) as [|e [part|]];
        cbn [disk_after exit_code]; try discriminate.
      intros _. unfold disk_exists, disk_write. now rewrite String.eqb_refl.
    - destruct (write_result disk _ _) as [|e [part|]];
        cbn [disk_after exit_code]; try discriminate.
      intros _. unfold disk_exists, disk_write. now rewrite String.eqb_refl. }
  split; [exact Hexists|].
  now apply (init_existing _ again later dir).
Qed.

End InitProperties.

(** ** The doctor command *)

Lemma filter_push_check (s : Status) (checks : list EnvironmentCheck)
  (c : EnvironmentCheck) :
  filter (has_status s) (push_check checks c)
  = filter (has_status s) checks
    ++ (if Status_eqb (EnvironmentCheck.status c) s then [c] else []).
Proof.
  unfold push_check. rewrite filter_app. simpl. unfold has_status at 2.
  now destruct (Status_eqb (EnvironmentCheck.status c) s).
Qed.

Lemma cli_checks_fail (env : Environment) (checks : list EnvironmentCheck) :
  filter (has_status fail) (checkCliInstallation env checks)
  = filter (has_status fail) checks.
Proof.
  unfold checkCliInstallation.
  destruct (find_package env) as [[packageJson packagePath]|e].
  - destruct (version_of packageJson) as [version|e].
    + destruct (which_promarker env); rewrite !filter_push_check; simpl;
        now rewrite !app_nil_r.
    + rewrite filter_push_check. simpl. now rewrite app_nil_r.
  - rewrite filter_push_check. simpl. now rewrite app_nil_r.
Qed.

Lemma directory_checks_fail (env : Environment)
  (checks checks' : list EnvironmentCheck) :
  checkCurrentDirectory env checks = Returns checks' ->
  filter (has_status fail) checks' = filter (has_status fail) checks.
Proof.
  unfold checkCurrentDirectory.
  destruct (process_cwd env) as [currentDir|e]; [|discriminate].
  intros H. injection H as <-.
  destruct (env_existsSync env (env_resolve env currentDir "stencil-settings.yml"));
    destruct (env_existsSync env (env_resolve env currentDir "files"));
    rewrite !filter_push_check; simpl; now rewrite !app_nil_r.
Qed.

(** X19.  The check of the CLI installation and the check of the current
    directory never add a failed check: a package that cannot be found, a
    [promarker] that is not on the path, a directory without
    [stencil-settings.yml] or [files] are warnings at most.  The failed
    checks after either of them are the failed checks before it. *)
Theorem installation_and_directory_never_fail (env : Environment)
  (checks : list EnvironmentCheck) :
  filter (has_status fail) (checkCliInstallation env checks)
  = filter (has_status fail) checks
  /\ (forall checks',
         checkCurrentDirectory env checks = Returns checks' ->
         filter (has_status fail) checks' = filter (has_status fail) checks
         /\ List.length checks' = List.length checks + 2).
Proof.
  split; [apply cli_checks_fail|].
  intros checks' Hret. split; [exact (directory_checks_fail _ _ _ Hret)|].
  revert Hret. unfold checkCurrentDirectory, push_check.
  destruct (process_cwd env) as [currentDir|e]; [|discriminate].
  intros H. injection H as <-.
  destruct (env_existsSync env _), (env_existsSync env _);
    rewrite !length_app; simpl; lia.
Qed.

Lemma last_app_singleton {A : Type} (l : list A) (x d : A) :
  last (l ++ [x]) d = x.
Proof.
  induction l as [|y l IH]; [reflexivity|].
  simpl. destruct (l ++ [x]) eqn:E; [now destruct l | exact IH].
Qed.

Lemma fail_count_zero (checks : list EnvironmentCheck) :
  Nat.eqb (List.length (filter (has_status fail) checks)) 0
  = negb (existsb (has_status fail) checks).
Proof.
  induction checks as [|c checks IH]; [reflexivity|].
  simpl. destruct (has_status fail c); [reflexivity | exact IH].
Qed.

Lemma doctor_report_last (checks : list EnvironmentCheck) :
  last (printDoctorResults checks) ""
  = if existsb (has_status fail) checks then address_line else ready_line.
Proof.
  unfold printDoctorResults. cbv zeta.
  rewrite !app_assoc, last_app_singleton, fail_count_zero.
  now destruct (existsb (has_status fail) checks).
Qed.

Lemma status_counts (checks : list EnvironmentCheck) :
  List.length (filter (has_status pass) checks)
  + List.length (filter (has_status warn) checks)
  + List.length (filter (has_status fail) checks)
  = List.length checks.
Proof.
  induction checks as [|c checks IH]; [reflexivity|].
  cbn [filter].
  change (has_status pass c) with (Status_eqb (EnvironmentCheck.status c) pass).
  change (has_status warn c) with (Status_eqb (EnvironmentCheck.status c) warn).
  change (has_status fail c) with (Status_eqb (EnvironmentCheck.status c) fail).
  destruct (EnvironmentCheck.status c); cbn [Status_eqb List.length]; lia.
Qed.

(** X20.  The report of the doctor ends with the line that the environment
    is ready when no check has failed, and with the line that asks to
    address the failed checks when one has; warnings do not change the
    last line.  The three counts of the summary add up to the number of
    checks. *)
Theorem doctor_report_verdict (checks : list EnvironmentCheck) :
  last (printDoctorResults checks) ""
  = (if existsb (has_status fail) checks then address_line else ready_line)
  /\ List.length (filter (has_status pass) checks)
     + List.length (filter (has_status warn) checks)
     + List.length (filter (has_status fail) checks)
     = List.length checks.
Proof.
  split; [apply doctor_report_last | apply status_counts].
Qed.

(** X21.  When [process.cwd()] throws, the doctor ends with that
    exception, and all it has printed is the two lines of the header: no
    check, no summary, no verdict.  Otherwise it returns, and its report
    says that the environment is ready exactly when the major version of
    Node.js is 18 or more and the current directory can be read: the
    report line before the closing notes is the ready line in that case
    and the line that asks to address the failed checks in every
    other. *)
Theorem doctor_ready (env : Environment) :
  (forall e,
      process_cwd env = Throws e ->
      doctorCommand env
      = {| printed :=
             [ (line_feed ++ "🔧 ProMarker CLI Environment Check")%string;
               "===================================" ];
           ended_with := Some e |})
  /\ (forall dir,
         process_cwd env = Returns dir ->
         exists front,
           doctorCommand env
           = {| printed :=
                  front
                  ++ [if PrimFloat.leb 18%float
                           (parseInt env
                              (before_dot (slice1 (process_version env))))
                         && match access_read env dir with
                            | Returns _ => true
                            | Throws _ => false
                            end
                      then ready_line else address_line]
                  ++ doctor_footer;
                ended_with := None |}).
Proof.
  split.
  - intros e Hcwd. unfold doctorCommand, doctor_checks, checkCurrentDirectory.
    now rewrite Hcwd.
  - intros dir Hcwd. unfold doctorCommand, doctor_checks. cbv zeta.
    destruct (checkCurrentDirectory env
                (checkCliInstallation env (checkNodeVersion env [])))
      as [checks|e] eqn:Hdir.
    2:{ unfold checkCurrentDirectory in Hdir. rewrite Hcwd in Hdir.
        discriminate. }
    set (all := checkFilePermissions env checks).
    assert (Hfail :
              existsb (has_status fail) all
              = negb (PrimFloat.leb 18%float
                        (parseInt env (before_dot (slice1 (process_version env))))
                      && match access_read env dir with
                         | Returns _ => true
                         | Throws _ => false
                         end)).
    { rewrite <- (negb_involutive (existsb _ all)), <- fail_count_zero.
      f_equal. subst all. unfold checkFilePermissions. rewrite Hcwd.
      assert (Hchecks :
                filter (has_status fail) checks
                = filter (has_status fail) (checkNodeVersion env [])).
      { rewrite (directory_checks_fail _ _ _ Hdir). apply cli_checks_fail. }
      unfold checkNodeVersion in Hchecks. cbv zeta in Hchecks.
      destruct (PrimFloat.leb 18%float _);
        destruct (access_read env dir);
        rewrite filter_push_check, Hchecks, filter_push_check; reflexivity. }
    exists (doctor_header
            ++ removelast (printDoctorResults all)).
    f_equal.
    rewrite <- app_assoc. f_equal. rewrite app_assoc. f_equal.
    pose proof (doctor_report_last all) as Hlast.
    rewrite Hfail in Hlast.
    assert (Hne : printDoctorResults all <> [])
      by (unfold printDoctorResults; discriminate).
    rewrite (app_removelast_last "" Hne) at 1. rewrite Hlast.
    now destruct (PrimFloat.leb 18%float _ && _).
Qed.

(** ** The further properties on the sample host *)

Lemma bad_required_field_witness :
  exists r msg,
    In r (validateSettingsFile extended_parseYaml default_invalid_type_message
            (stencil_fs (Some doc_empty_id) []) "/stencil/stencil-settings.yml"
            [] default_options)
    /\ ValidationResult.type r = error
    /\ ValidationResult.path r = "/stencil/stencil-settings.yml"
    /\ ValidationResult.message r
       = ("Schema validation failed: " ++ "id" ++ " - " ++ msg)%string
    /\ (lookup "id" (("id", JString "") :: base_fields) = Some (JString "") ->
        In ("id", z_string (Some (1, msg))) (shape_of StencilSettingsSchema)).
Proof.
  apply (bad_required_field extended_parseYaml default_invalid_type_message
           (stencil_fs (Some doc_empty_id) []) "/stencil/stencil-settings.yml"
           default_options doc_empty_id (("id", JString "") :: base_fields) "id");
    try reflexivity.
  simpl. now left.
Defined.

Lemma bad_sequence_entry_witness :
  exists r,
    In r (validateSettingsFile extended_parseYaml default_invalid_type_message
            (stencil_fs (Some doc_number_entry) ["files/a.txt"])
            "/stencil/stencil-settings.yml" [] default_options)
    /\ ValidationResult.type r = error
    /\ ValidationResult.message r
       = "Schema validation failed: files.1 - Expected string, received number".
Proof.
  apply (bad_sequence_entry extended_parseYaml default_invalid_type_message
           (stencil_fs (Some doc_number_entry) ["files/a.txt"])
           "/stencil/stencil-settings.yml" default_options doc_number_entry
           (("id", JString "svc") :: base_fields
            ++ [("files", JArray [JString "files/a.txt"; JNumber 7%float])])
           "files" [JString "files/a.txt"; JNumber 7%float] 1 (JNumber 7%float));
    try reflexivity.
  now left.
Defined.

Lemma reference_check_without_list_witness :
  validateFileReferences sample_join (stencil_fs (Some doc_bad_id) [])
    "/stencil" settings_bad_id []
  = [ files_dir_missing "/stencil/files" ].
Proof.
  apply (proj1 (proj2 (reference_check_without_list sample_join
                         (stencil_fs (Some doc_bad_id) []) "/stencil"
                         settings_bad_id []))); reflexivity.
Defined.

Lemma exit_code_and_success_witness :
  "warn" = "warn"
  /\ exists r,
      In r [files_dir_missing "/stencil/files"]
      /\ ValidationResult.type r = warning.
Proof.
  apply (proj2 (proj2 (exit_code_and_success "/stencil"
                         [files_dir_missing "/stencil/files"] 1
                         "2025-01-01T00:00:00.000Z" "warn"))).
  reflexivity.
Defined.

Lemma valid_document_errors_witness :
  let fs := stencil_fs (Some doc_declared_files) ["files/a.txt"] in
  ValidationSummary.errors (sample_run fs default_options)
  = [ reference_missing "/stencil/files/b.txt" "files/b.txt" ]
  /\ (ValidationSummary.success (sample_run fs default_options) = true
      <-> forall file,
          In file ["files/a.txt"; "files/b.txt"] ->
          existsSync fs (sample_join "/stencil" file) = true).
Proof.
  cbv zeta.
  apply (valid_document_errors sample_join sample_parseYaml
           default_invalid_type_message
           (stencil_fs (Some doc_declared_files) ["files/a.txt"]) "/stencil"
           default_options "2025-01-01T00:00:00.000Z" doc_declared_files
           settings_declared_files); reflexivity.
Defined.

Lemma only_strict_reaches_engine_witness :
  let fs := stencil_fs (Some doc_declared_files) ["files/a.txt"] in
  sample_run fs default_options = sample_run fs json_options.
Proof.
  cbv zeta. apply only_strict_reaches_engine. reflexivity.
Defined.

Lemma strict_version_warning_witness :
  In (version_warning "/stencil/stencil-settings.yml")
     (performStrictValidation "/stencil/stencil-settings.yml"
        settings_short_version [])
  <-> ~ semver_prefix "v1.0".
Proof.
  apply strict_version_warning. reflexivity.
Defined.

Lemma strict_id_warning_witness :
  In (id_warning "/stencil/stencil-settings.yml")
     (performStrictValidation "/stencil/stencil-settings.yml" settings_bad_id [])
  <-> "Bad ID!" = ""
      \/ exists c,
          In c (list_ascii_of_string "Bad ID!")
          /\ ~ In c (list_ascii_of_string id_alphabet).
Proof.
  apply strict_id_warning. reflexivity.
Defined.

Lemma unreadable_settings_run_witness :
  findings (sample_run unreadable_fs default_options)
  = [ {| ValidationResult.path := "/stencil/stencil-settings.yml";
         ValidationResult.type := error;
         ValidationResult.message := "Failed to read stencil settings file";
         ValidationResult.details := Some "EACCES: permission denied" |} ]
  /\ ValidationSummary.success (sample_run unreadable_fs default_options) = false
  /\ ValidationSummary.totalFiles (sample_run unreadable_fs default_options) = 1.
Proof.
  apply (unreadable_settings_run sample_join sample_parseYaml
           default_invalid_type_message unreadable_fs "/stencil"
           default_options "2025-01-01T00:00:00.000Z"
           (ErrorObject "EACCES: permission denied")
           (TDir [("stencil-settings.yml", TFile)]));
    reflexivity.
Defined.

Lemma non_mapping_document_run_witness :
  let summary :=
    validateStencilDefinition sample_join extended_parseYaml
      default_invalid_type_message (stencil_fs (Some doc_sequence) [])
      "/stencil" default_options "2025-01-01T00:00:00.000Z" in
  map ValidationResult.message (ValidationSummary.errors summary)
  = [ "Schema validation failed:  - Expected object, received array" ]
  /\ ValidationSummary.warnings summary ++ ValidationSummary.info summary
     = [ files_dir_missing "/stencil/files" ].
Proof.
  cbv zeta.
  destruct (non_mapping_document_run sample_join extended_parseYaml
              default_invalid_type_message (stencil_fs (Some doc_sequence) [])
              "/stencil" default_options "2025-01-01T00:00:00.000Z"
              doc_sequence (JArray [JString "a"; JString "b"]))
    as (Herrors & _ & Hsequence); try reflexivity.
  split.
  - rewrite Herrors. reflexivity.
  - exact (Hsequence eq_refl).
Defined.

Lemma init_keeps_existing_config_witness :
  initCommand sample_join (Returns "/project") always_written initialized_disk
    {| force := None |} "2025-01-01T00:00:00.000Z"
  = {| disk_after := initialized_disk; exit_code := None; uncaught := None |}.
Proof.
  apply (init_keeps_existing_config sample_join (Returns "/project")
           always_written initialized_disk {| force := None |}
           "2025-01-01T00:00:00.000Z" "/project");
    [reflexivity | reflexivity | discriminate].
Defined.

Lemma init_writes_only_config_witness :
  let result :=
    initCommand sample_join (Returns "/project") disk_full initialized_disk
      {| force := Some true |} "2025-01-01T00:00:00.000Z" in
  disk_after result "/project" = Some Directory
  /\ exit_code result = Some 1
  /\ disk_after result "/project/.promarker.json" = Some (File "").
Proof.
  cbv zeta.
  destruct (proj2 (init_writes_only_config sample_join (Returns "/project")
                     disk_full initialized_disk {| force := Some true |}
                     "2025-01-01T00:00:00.000Z") "/project" eq_refl)
    as (Hother & _ & _).
  split; [|split; reflexivity].
  apply (Hother "/project"). discriminate.
Defined.

Lemma init_twice_witness :
  let first :=
    initCommand sample_join (Returns "/project") always_written empty_disk
      {| force := None |} "2025-01-01T00:00:00.000Z" in
  disk_exists (disk_after first) "/project/.promarker.json" = true
  /\ initCommand sample_join (Returns "/project") always_written
       (disk_after first) {| force := Some false |} "2025-06-01T00:00:00.000Z"
     = {| disk_after := disk_after first; exit_code := None;
          uncaught := None |}.
Proof.
  cbv zeta.
  apply (init_twice sample_join (Returns "/project") always_written empty_disk
           {| force := None |} {| force := Some false |}
           "2025-01-01T00:00:00.000Z" "2025-06-01T00:00:00.000Z" "/project");
    [reflexivity | reflexivity | discriminate].
Defined.

Lemma installation_and_directory_never_fail_witness :
  let env := sample_environment "v16.20.2" true in
  exists checks,
    checkCurrentDirectory env (checkNodeVersion env []) = Returns checks
    /\ filter (has_status fail) checks
       = filter (has_status fail) (checkNodeVersion env [])
    /\ List.length checks = 3.
Proof.
  cbv zeta. eexists. split; [reflexivity|].
  apply (proj2 (installation_and_directory_never_fail
                  (sample_environment "v16.20.2" true)
                  (checkNodeVersion (sample_environment "v16.20.2" true) []))).
  reflexivity.
Defined.

Lemma doctor_ready_witness :
  exists front,
    doctorCommand (sample_environment "v20.11.0" true)
    = {| printed := front ++ [ready_line] ++ doctor_footer;
         ended_with := None |}.
Proof.
  apply (proj2 (doctor_ready (sample_environment "v20.11.0" true)) "/stencil").
  reflexivity.
Defined.
